(** * Atlas API helper: component validation and null stripping

    A shallow embedding of [src/package/src/types/components.ts]
    ([validateEntityComponents], [stripNulls], [componentsToRecord]), of
    [AtlasHttpClient] ([src/package/src/httpClient.ts]: the constructor,
    the headers, [request], [multipartRequest] and the methods built on
    them) and of the frame guards ([src/package/src/types/guards.ts]). *)

From Stdlib Require Import List String Ascii Bool Arith Lia PrimFloat DecimalString.
From Stdlib Require Import Permutation DecimalNat.
Import ListNotations.
Local Open Scope string_scope.
Local Open Scope list_scope.

(** ** JavaScript values

    The values the helper functions receive: [null], [undefined], the three
    scalar kinds, arrays and plain objects.  A plain object is the list of
    its own enumerable string-keyed properties in the order [Object.keys]
    and [Object.entries] enumerate them (array-index keys first, then the
    other keys as they were created); JavaScript keeps the keys of an
    object distinct, which the statements that need it assume as
    [NoDup (Object_keys o)]. *)

Module JS.

Unset Elimination Schemes.
Inductive value : Type :=
| VNull
| VUndefined
| VBool (b : bool)
| VNum (n : float)
| VStr (s : string)
| VArr (items : list value)
| VObj (entries : list (string * value)).
Set Elimination Schemes.

(** Induction over values, with the hypothesis available for every array
    element and every property value. *)
Section ValueInd.
Variable P : value -> Prop.
Hypothesis HNull : P VNull.
Hypothesis HUndefined : P VUndefined.
Hypothesis HBool : forall b, P (VBool b).
Hypothesis HNum : forall n, P (VNum n).
Hypothesis HStr : forall s, P (VStr s).
Hypothesis HArr : forall items, Forall P items -> P (VArr items).
Hypothesis HObj :
  forall entries, Forall (fun kv => P (snd kv)) entries -> P (VObj entries).

Fixpoint value_ind (v : value) : P v :=
  match v with
  | VNull => HNull
  | VUndefined => HUndefined
  | VBool b => HBool b
  | VNum n => HNum n
  | VStr s => HStr s
  | VArr items =>
      HArr items
        ((fix all (l : list value) : Forall P l :=
            match l with
            | [] => Forall_nil P
            | x :: l' => Forall_cons x (value_ind x) (all l')
            end) items)
  | VObj entries =>
      HObj entries
        ((fix all (l : list (string * value))
            : Forall (fun kv => P (snd kv)) l :=
            match l with
            | [] => Forall_nil _
            | kv :: l' => Forall_cons kv (value_ind (snd kv)) (all l')
            end) entries)
  end.
End ValueInd.

(** [v === null] *)
Definition is_null (v : value) : bool :=
  match v with
  | VNull => true
  | _ => false
  end.

(** [v === undefined]; [v !== undefined] is its negation. *)
Definition is_undefined (v : value) : bool :=
  match v with
  | VUndefined => true
  | _ => false
  end.

(** [v === null || v === undefined] *)
Definition is_nullish (v : value) : bool := is_null v || is_undefined v.

Definition Array_isArray (v : value) : bool :=
  match v with
  | VArr _ => true
  | _ => false
  end.

Definition typeof (v : value) : string :=
  match v with
  | VUndefined => "undefined"
  | VBool _ => "boolean"
  | VNum _ => "number"
  | VStr _ => "string"
  | VNull | VArr _ | VObj _ => "object"
  end.

(** [Object.keys(o)] for a plain object given by its property list. *)
Definition Object_keys (o : list (string * value)) : list string :=
  map fst o.

(** Own-property lookup [o[key]] (first binding of [key]). *)
Fixpoint get_prop (o : list (string * value)) (key : string) : option value :=
  match o with
  | [] => None
  | (k, v) :: o' => if String.eqb k key then Some v else get_prop o' key
  end.

(** A thrown [Error] with its message. *)
Inductive exn : Type :=
| Error (message : string)
| TypeError (message : string).

End JS.
Import JS.

(** ** The validator *)

Definition KNOWN_ENTITY_COMPONENTS : list string :=
  [ "telemetry"; "geometry"; "task_catalog"; "media_refs"; "mil_view";
    "health"; "sensor_refs"; "communications"; "task_queue"; "status";
    "heartbeat" ].

(** [KNOWN_ENTITY_COMPONENTS.has(key)] *)
Definition known_has (key : string) : bool :=
  existsb (String.eqb key) KNOWN_ENTITY_COMPONENTS.

(** [key.startsWith("custom_")] *)
Definition startsWith (key pre : string) : bool := String.prefix pre key.

(** The condition under which the loop body does not throw. *)
Definition key_accepted (key : string) : bool :=
  known_has key || startsWith key "custom_".

Definition unknown_component_message (key : string) : string :=
  ("Unknown component '" ++ key ++
   "' in entity components. Custom components must be prefixed with 'custom_'"
  )%string.

(** The [for (const key of Object.keys(components))] loop. *)
Fixpoint validate_keys (keys : list string) : exn + unit :=
  match keys with
  | [] => inr tt
  | key :: rest =>
      if negb (known_has key) && negb (startsWith key "custom_")
      then inl (Error (unknown_component_message key))
      else validate_keys rest
  end.

Definition validateEntityComponents (components : list (string * value))
  : exn + unit :=
  validate_keys (Object_keys components).

(** ** The null/undefined stripper *)

(** [nested[key] = stripped] on an object created by the literal [{}].  An
    existing key is updated in place and a new one is appended to the own
    properties; the keys are assigned in the order the source object
    enumerates them, so appending keeps the enumeration order.  The key
    [__proto__] is the one exception: the assignment reaches the accessor
    inherited from [Object.prototype] and creates no own property. *)
Fixpoint assign_own (o : list (string * value)) (key : string) (v : value)
  : list (string * value) :=
  match o with
  | [] => [(key, v)]
  | (k, w) :: o' =>
      if String.eqb k key then (k, v) :: o' else (k, w) :: assign_own o' key v
  end.

Definition set_prop (o : list (string * value)) (key : string) (v : value)
  : list (string * value) :=
  if String.eqb key "__proto__" then o else assign_own o key v.

(** The callback given to [value.map]. *)
Definition strip_item (stripValue : value -> value) (item : value) : value :=
  if is_nullish item then item else stripValue item.

(** One iteration of the loop over [Object.entries(value)]. *)
Definition strip_entry (stripValue : value -> value)
    (nested : list (string * value)) (entry : string * value)
  : list (string * value) :=
  let (key, innerValue) := entry in
  if is_nullish innerValue then nested
  else
    let stripped := stripValue innerValue in
    if negb (is_undefined stripped) then set_prop nested key stripped
    else nested.

Fixpoint stripValue (value : JS.value) : JS.value :=
  match value with
  | VNull | VUndefined => VUndefined
  | VArr items => VArr (map (strip_item stripValue) items)
  | VObj entries => VObj (fold_left (strip_entry stripValue) entries [])
  | VBool _ | VNum _ | VStr _ => value
  end.

Definition stripNulls (obj : value) : value := stripValue obj.

Definition componentsToRecord (components : value) : value :=
  if is_undefined components then VUndefined
  else stripNulls components.

(** ** The stripper run step by step

    The same function body read operationally: the tests of the source in
    their order, on a dynamically typed [value], with the partial
    primitives it calls ([value.map], [Object.entries]) throwing where
    JavaScript does, and the depth of the call stack bounded by [depth]. *)

Module Run.

Inductive outcome (A : Type) : Type :=
| Returned (a : A)
| Threw (e : exn)
| Exhausted.
Arguments Returned {A} a.
Arguments Threw {A} e.
Arguments Exhausted {A}.

Definition bind {A B : Type} (m : outcome A) (k : A -> outcome B) : outcome B :=
  match m with
  | Returned a => k a
  | Threw e => Threw e
  | Exhausted => Exhausted
  end.

Notation "x <- m ;; k" := (bind m (fun x => k))
  (at level 61, m at next level, right associativity).

(** [items.map(f)] for a callback that may throw. *)
Fixpoint map_items (f : value -> outcome value) (items : list value)
  : outcome (list value) :=
  match items with
  | [] => Returned []
  | item :: rest =>
      item' <- f item ;;
      rest' <- map_items f rest ;;
      Returned (item' :: rest')
  end.

(** A [for ... of] loop threading the object under construction. *)
Fixpoint for_of {A S : Type} (body : S -> A -> outcome S) (xs : list A) (s : S)
  : outcome S :=
  match xs with
  | [] => Returned s
  | x :: rest => s' <- body s x ;; for_of body rest s'
  end.

(** [value.map(f)]: only arrays have the method. *)
Definition Array_map (f : value -> outcome value) (v : value) : outcome value :=
  match v with
  | VArr items => items' <- map_items f items ;; Returned (VArr items')
  | VNull | VUndefined =>
      Threw (TypeError "Cannot read properties of null or undefined")
  | _ => Threw (TypeError "value.map is not a function")
  end.

Definition index_key (i : nat) : string :=
  NilEmpty.string_of_uint (Nat.to_uint i).

Fixpoint indexed {A : Type} (f : A -> value) (i : nat) (xs : list A)
  : list (string * value) :=
  match xs with
  | [] => []
  | x :: rest => (index_key i, f x) :: indexed f (S i) rest
  end.

(** [Object.entries(v)]: throws on [null] and [undefined]; an array or a
    string is enumerated by index; the other scalars have no own
    properties. *)
Definition Object_entries (v : value) : outcome (list (string * value)) :=
  match v with
  | VNull | VUndefined =>
      Threw (TypeError "Cannot convert undefined or null to object")
  | VObj entries => Returned entries
  | VArr items => Returned (indexed (fun item => item) 0 items)
  | VStr s =>
      Returned (indexed (fun c => VStr (String c EmptyString)) 0
                  (list_ascii_of_string s))
  | VBool _ | VNum _ => Returned []
  end.

Fixpoint run_stripValue (depth : nat) (value : JS.value) : outcome JS.value :=
  match depth with
  | 0 => Exhausted
  | S depth' =>
      if is_nullish value then Returned VUndefined
      else if Array_isArray value then
        Array_map
          (fun item =>
             if is_nullish item then Returned item
             else run_stripValue depth' item)
          value
      else if String.eqb (typeof value) "object" then
        entries <- Object_entries value ;;
        nested <-
          for_of
            (fun nested (entry : string * JS.value) =>
               let (key, innerValue) := entry in
               if is_nullish innerValue then Returned nested
               else
                 stripped <- run_stripValue depth' innerValue ;;
                 if negb (is_undefined stripped)
                 then Returned (set_prop nested key stripped)
                 else Returned nested)
            entries [] ;;
        Returned (VObj nested)
      else Returned value
  end.

Definition run_stripNulls (depth : nat) (obj : value) : outcome value :=
  run_stripValue depth obj.

End Run.

(** Nesting depth of a value: the number of nested [stripValue] calls its
    traversal needs. *)
Fixpoint nesting (v : value) : nat :=
  match v with
  | VArr items => S (fold_right (fun item d => Nat.max (nesting item) d) 0 items)
  | VObj entries =>
      S (fold_right (fun kv d => Nat.max (nesting (snd kv)) d) 0 entries)
  | _ => 1
  end.

(** ** The HTTP client

    The transport is observed through the calls it receives: a method runs
    against the log of [fetchImpl] calls made so far and either throws,
    leaving the log as it is, or returns.  [request] is an [async] function,
    so its body up to the call of [this.fetchImpl] runs synchronously when a
    method calls it; what it returns is the pending promise of that call.
    The base URL is taken to be one that [new URL] accepts. *)

Module Http.

Definition JsonRecord : Type := list (string * value).

Record FetchCall : Type := mkFetchCall {
  fc_url : string;
  fc_search : list (string * value);
  fc_method : string;
  fc_headers : list (string * string);
  (** the record handed to [JSON.stringify], when there is one *)
  fc_body : option JsonRecord
}.

Inductive promise : Type :=
| Pending (call : FetchCall).

Record AtlasHttpClient : Type := mkClient {
  baseUrl : string;
  token : option string
}.

Definition Client (A : Type) : Type :=
  list FetchCall -> (exn + A) * list FetchCall.

Definition ret {A : Type} (a : A) : Client A := fun log => (inr a, log).

Definition throw {A : Type} (e : exn) : Client A := fun log => (inl e, log).

Definition bind {A B : Type} (m : Client A) (k : A -> Client B) : Client B :=
  fun log =>
    match m log with
    | (inl e, log') => (inl e, log')
    | (inr a, log') => k a log'
    end.

(** A call of a synchronous function that may throw. *)
Definition lift {A : Type} (r : exn + A) : Client A := fun log => (r, log).

(** [this.fetchImpl(url, init)] *)
Definition fetchImpl (call : FetchCall) : Client promise :=
  fun log => (inr (Pending call), (log ++ [call])%list).

Notation "x <- m ;; k" := (bind m (fun x => k))
  (at level 61, m at next level, right associativity).
Notation "m ;;; k" := (bind m (fun _ => k))
  (at level 61, right associativity).

(** [if (this.token)]: a token that is present and not the empty string. *)
Definition headers (c : AtlasHttpClient) : list (string * string) :=
  let headers := [("Content-Type", "application/json")] in
  match token c with
  | Some t =>
      if String.eqb t "" then headers
      else (headers ++ [("Authorization", ("Bearer " ++ t)%string)])%list
  | None => headers
  end.

(** The entries of [params] for which [url.searchParams.set] is called. *)
Definition search_params (params : option JsonRecord) : list (string * value) :=
  match params with
  | Some ps => filter (fun kv => negb (is_nullish (snd kv))) ps
  | None => []
  end.

Definition request (c : AtlasHttpClient) (method path : string)
    (body : option JsonRecord) (params : option JsonRecord) : Client promise :=
  fetchImpl
    {| fc_url := (baseUrl c ++ path)%string;
       fc_search := search_params params;
       fc_method := method;
       fc_headers := headers c;
       fc_body := body |}.

Definition createEntity (c : AtlasHttpClient)
    (entityId entityType alias subtype : string)
    (components : option JsonRecord) : Client promise :=
  let payload : JsonRecord :=
    [ ("entity_id", VStr entityId); ("entity_type", VStr entityType);
      ("alias", VStr alias); ("subtype", VStr subtype) ] in
  payload <-
    match components with
    | Some components =>
        lift (validateEntityComponents components) ;;;
        ret (set_prop payload "components"
               (componentsToRecord (VObj components)))
    | None => ret payload
    end ;;
  request c "POST" "/entities" (Some payload) None.

Record UpdateEntityOptions : Type := mkUpdateEntityOptions {
  ue_subtype : option string
}.

(** [options?.field] *)
Definition opt_field {O A : Type} (field : O -> option A) (options : option O)
  : option A :=
  match options with
  | Some o => field o
  | None => None
  end.

(** [if (x !== undefined) payload.key = x;] *)
Definition set_if_defined (payload : JsonRecord) (key : string)
    (x : option value) : JsonRecord :=
  match x with
  | Some v => set_prop payload key v
  | None => payload
  end.

Definition updateEntity (c : AtlasHttpClient) (entityId : string)
    (components : option JsonRecord) (options : option UpdateEntityOptions)
  : Client promise :=
  match components, opt_field ue_subtype options with
  | None, None =>
      throw (Error
        "AtlasHttpClient.updateEntity requires a components payload or subtype.")
  | _, _ =>
      let payload : JsonRecord := [] in
      payload <-
        match components with
        | Some components =>
            lift (validateEntityComponents components) ;;;
            ret (set_prop payload "components"
                   (componentsToRecord (VObj components)))
        | None => ret payload
        end ;;
      let payload :=
        set_if_defined payload "subtype"
          (option_map VStr (opt_field ue_subtype options)) in
      request c "PATCH" ("/entities/" ++ entityId)%string (Some payload) None
  end.

Record TaskOptions : Type := mkTaskOptions {
  to_status : option string;
  to_entity_id : option string;
  to_extra : option JsonRecord
}.

(** [options?.status || "pending"]: the empty string is falsy too. *)
Definition status_or_pending (options : option TaskOptions) : string :=
  match opt_field to_status options with
  | Some s => if String.eqb s "" then "pending" else s
  | None => "pending"
  end.

Definition createTask (c : AtlasHttpClient) (taskId : string)
    (components : option JsonRecord) (options : option TaskOptions)
  : Client promise :=
  let payload : JsonRecord :=
    [ ("task_id", VStr taskId); ("status", VStr (status_or_pending options)) ] in
  let payload :=
    set_if_defined payload "entity_id"
      (option_map VStr (opt_field to_entity_id options)) in
  let payload :=
    set_if_defined payload "components"
      (option_map (fun components => componentsToRecord (VObj components))
         components) in
  let payload :=
    set_if_defined payload "extra"
      (option_map VObj (opt_field to_extra options)) in
  request c "POST" "/tasks" (Some payload) None.

Definition updateTask (c : AtlasHttpClient) (taskId : string)
    (components : option JsonRecord) (options : option TaskOptions)
  : Client promise :=
  match components, options with
  | None, None =>
      throw (Error
        "AtlasHttpClient.updateTask requires a components payload or options.")
  | _, _ =>
      let payload : JsonRecord := [] in
      let payload :=
        set_if_defined payload "components"
          (option_map (fun components => componentsToRecord (VObj components))
             components) in
      let payload :=
        set_if_defined payload "status"
          (option_map VStr (opt_field to_status options)) in
      let payload :=
        set_if_defined payload "entity_id"
          (option_map VStr (opt_field to_entity_id options)) in
      let payload :=
        set_if_defined payload "extra"
          (option_map VObj (opt_field to_extra options)) in
      request c "PATCH" ("/tasks/" ++ taskId)%string (Some payload) None
  end.

End Http.

(** ** The other request-building methods of the client

    The methods of [AtlasHttpClient] that build one request and return the
    promise of [this.request(...)].  A parameter with a default value, and
    the left side of [??], is an [option]: [None] is [undefined]. *)

Module Methods.

Import Http.

(** [x ?? d], and a parameter declared [x = d]. *)
Definition default {A : Type} (d : A) (x : option A) : A :=
  match x with
  | Some a => a
  | None => d
  end.

(** The value of an optional field read into an object literal. *)
Definition or_undefined {A : Type} (f : A -> value) (x : option A) : value :=
  match x with
  | Some a => f a
  | None => VUndefined
  end.

(** What a method hands back: the promise of a request, or, in
    [updateObject], [Promise.reject(error)]. *)
Inductive returned : Type :=
| Promise (p : promise)
| RejectedPromise (e : exn).

(** *** Service *)

Definition getRoot (c : AtlasHttpClient) : Client promise :=
  request c "GET" "/" None None.

Definition getHealth (c : AtlasHttpClient) : Client promise :=
  request c "GET" "/health" None None.

Definition getReadiness (c : AtlasHttpClient) : Client promise :=
  request c "GET" "/readiness" None None.

(** *** Entities *)

Definition listEntities (c : AtlasHttpClient) (limit offset : option float)
  : Client promise :=
  request c "GET" "/entities" None
    (Some [ ("limit", VNum (default 100%float limit));
            ("offset", VNum (default 0%float offset)) ]).

Definition getEntity (c : AtlasHttpClient) (entityId : string)
  : Client promise :=
  request c "GET" ("/entities/" ++ entityId)%string None None.

Definition getEntityByAlias (c : AtlasHttpClient) (alias : string)
  : Client promise :=
  request c "GET" ("/entities/alias/" ++ alias)%string None None.

Definition deleteEntity (c : AtlasHttpClient) (entityId : string)
  : Client promise :=
  request c "DELETE" ("/entities/" ++ entityId)%string None None.

Record TelemetryOptions : Type := mkTelemetryOptions {
  latitude : option float;
  longitude : option float;
  altitude_m : option float;
  speed_m_s : option float;
  heading_deg : option float
}.

Definition updateEntityTelemetry (c : AtlasHttpClient) (entityId : string)
    (options : TelemetryOptions) : Client promise :=
  let payload : JsonRecord := [] in
  let payload :=
    set_if_defined payload "latitude" (option_map VNum (latitude options)) in
  let payload :=
    set_if_defined payload "longitude" (option_map VNum (longitude options)) in
  let payload :=
    set_if_defined payload "altitude_m" (option_map VNum (altitude_m options)) in
  let payload :=
    set_if_defined payload "speed_m_s" (option_map VNum (speed_m_s options)) in
  let payload :=
    set_if_defined payload "heading_deg"
      (option_map VNum (heading_deg options)) in
  request c "PATCH" ("/entities/" ++ entityId ++ "/telemetry")%string
    (Some payload) None.

Record CheckinOptions : Type := mkCheckinOptions {
  ci_status : option string;
  ci_status_filter : option string;
  ci_limit : option float;
  ci_since : option string;
  ci_fields : option string
}.

(** [telemetry] is the object that is spread into the payload: its own
    properties, whatever they are bound to. *)
Definition checkinEntity (c : AtlasHttpClient) (entityId : string)
    (telemetry : JsonRecord) (options : option CheckinOptions)
  : Client promise :=
  let payload : JsonRecord := telemetry in
  let payload :=
    set_if_defined payload "status"
      (option_map VStr (opt_field ci_status options)) in
  let params : JsonRecord :=
    [ ("status_filter",
       VStr (default "pending,acknowledged"
               (opt_field ci_status_filter options)));
      ("limit", VNum (default 10%float (opt_field ci_limit options)));
      ("since", or_undefined VStr (opt_field ci_since options));
      ("fields", or_undefined VStr (opt_field ci_fields options)) ] in
  request c "POST" ("/entities/" ++ entityId ++ "/checkin")%string
    (Some payload) (Some params).

(** *** Tasks *)

Definition listTasks (c : AtlasHttpClient) (limit : option float)
    (status : option string) (offset : option float) : Client promise :=
  request c "GET" "/tasks" None
    (Some [ ("limit", VNum (default 25%float limit));
            ("status", or_undefined VStr status);
            ("offset", VNum (default 0%float offset)) ]).

Definition getTask (c : AtlasHttpClient) (taskId : string) : Client promise :=
  request c "GET" ("/tasks/" ++ taskId)%string None None.

Definition deleteTask (c : AtlasHttpClient) (taskId : string)
  : Client promise :=
  request c "DELETE" ("/tasks/" ++ taskId)%string None None.

Definition getTasksByEntity (c : AtlasHttpClient) (entityId : string)
    (limit : option float) (status : option string) (offset : option float)
  : Client promise :=
  request c "GET" ("/entities/" ++ entityId ++ "/tasks")%string None
    (Some [ ("limit", VNum (default 25%float limit));
            ("status", or_undefined VStr status);
            ("offset", VNum (default 0%float offset)) ]).

Definition acknowledgeTask (c : AtlasHttpClient) (taskId : string)
  : Client promise :=
  request c "POST" ("/tasks/" ++ taskId ++ "/acknowledge")%string
    (Some []) None.

Definition startTask (c : AtlasHttpClient) (taskId : string)
  : Client promise :=
  acknowledgeTask c taskId.

Definition completeTask (c : AtlasHttpClient) (taskId : string)
    (result : option JsonRecord) : Client promise :=
  let payload : JsonRecord := [] in
  let payload := set_if_defined payload "result" (option_map VObj result) in
  request c "POST" ("/tasks/" ++ taskId ++ "/complete")%string
    (Some payload) None.

Record TransitionOptions : Type := mkTransitionOptions {
  tr_validate : option bool;
  tr_extra : option JsonRecord
}.

Definition transitionTaskStatus (c : AtlasHttpClient) (taskId status : string)
    (options : option TransitionOptions) : Client promise :=
  let payload : JsonRecord :=
    [ ("status", VStr status);
      ("validate", VBool (default true (opt_field tr_validate options))) ] in
  let payload :=
    set_if_defined payload "extra"
      (option_map VObj (opt_field tr_extra options)) in
  request c "POST" ("/tasks/" ++ taskId ++ "/status")%string
    (Some payload) None.

Definition failTask (c : AtlasHttpClient) (taskId : string)
    (errorMessage : option string) (errorDetails : option JsonRecord)
  : Client promise :=
  let payload : JsonRecord := [] in
  let payload :=
    set_if_defined payload "error_message" (option_map VStr errorMessage) in
  let payload :=
    set_if_defined payload "error_details" (option_map VObj errorDetails) in
  request c "POST" ("/tasks/" ++ taskId ++ "/fail")%string (Some payload) None.

(** *** Objects *)

(** A reference [{ entity_id?, task_id? }], given by its defined fields. *)
Record ObjectReference : Type := mkObjectReference {
  entity_id : option string;
  task_id : option string
}.

Definition reference_value (r : ObjectReference) : value :=
  VObj (set_if_defined
          (set_if_defined [] "entity_id" (option_map VStr (entity_id r)))
          "task_id" (option_map VStr (task_id r))).

Definition strings_value (xs : list string) : value := VArr (map VStr xs).

Definition references_value (rs : list ObjectReference) : value :=
  VArr (map reference_value rs).

Definition listObjects (c : AtlasHttpClient) (limit offset : option float)
    (contentType type : option string) : Client promise :=
  request c "GET" "/objects" None
    (Some [ ("limit", VNum (default 100%float limit));
            ("offset", VNum (default 0%float offset));
            ("content_type", or_undefined VStr contentType);
            ("type", or_undefined VStr type) ]).

Definition getObject (c : AtlasHttpClient) (objectId : string)
  : Client promise :=
  request c "GET" ("/objects/" ++ objectId)%string None None.

Record ObjectMetadataOptions : Type := mkObjectMetadataOptions {
  om_path : option string;
  om_bucket : option string;
  om_size_bytes : option float;
  om_content_type : option string;
  om_type : option string;
  om_usage_hints : option (list string);
  om_referenced_by : option (list ObjectReference);
  om_extra : option JsonRecord
}.

Definition createObjectMetadata (c : AtlasHttpClient) (objectId : string)
    (options : option ObjectMetadataOptions) : Client promise :=
  let payload : JsonRecord :=
    [ ("object_id", VStr objectId);
      ("path", or_undefined VStr (opt_field om_path options));
      ("bucket", or_undefined VStr (opt_field om_bucket options));
      ("size_bytes", or_undefined VNum (opt_field om_size_bytes options));
      ("content_type", or_undefined VStr (opt_field om_content_type options));
      ("type", or_undefined VStr (opt_field om_type options));
      ("usage_hints",
       or_undefined strings_value (opt_field om_usage_hints options));
      ("referenced_by",
       or_undefined references_value (opt_field om_referenced_by options));
      ("extra", or_undefined VObj (opt_field om_extra options)) ] in
  request c "POST" "/objects" (Some payload) None.

Definition updateObject (c : AtlasHttpClient) (objectId : string)
    (usageHints : option (list string))
    (referencedBy : option (list ObjectReference)) : Client returned :=
  match usageHints, referencedBy with
  | None, None =>
      ret (RejectedPromise (Error
        "AtlasHttpClient.updateObject requires usageHints or referencedBy to make an update."))
  | _, _ =>
      let payload : JsonRecord := [] in
      let payload :=
        set_if_defined payload "usage_hints"
          (option_map strings_value usageHints) in
      let payload :=
        set_if_defined payload "referenced_by"
          (option_map references_value referencedBy) in
      p <- request c "PATCH" ("/objects/" ++ objectId)%string
             (Some payload) None ;;
      ret (Promise p)
  end.

Definition deleteObject (c : AtlasHttpClient) (objectId : string)
  : Client promise :=
  request c "DELETE" ("/objects/" ++ objectId)%string None None.

Definition getObjectsByEntity (c : AtlasHttpClient) (entityId : string)
    (limit offset : option float) : Client promise :=
  request c "GET" ("/entities/" ++ entityId ++ "/objects")%string None
    (Some [ ("limit", VNum (default 50%float limit));
            ("offset", VNum (default 0%float offset)) ]).

Definition getObjectsByTask (c : AtlasHttpClient) (taskId : string)
    (limit offset : option float) : Client promise :=
  request c "GET" ("/tasks/" ++ taskId ++ "/objects")%string None
    (Some [ ("limit", VNum (default 50%float limit));
            ("offset", VNum (default 0%float offset)) ]).

(** The payload of [addObjectReference] and [removeObjectReference]. *)
Definition reference_payload (entityId taskId : option string) : JsonRecord :=
  let payload : JsonRecord := [] in
  let payload :=
    set_if_defined payload "entity_id" (option_map VStr entityId) in
  set_if_defined payload "task_id" (option_map VStr taskId).

Definition addObjectReference (c : AtlasHttpClient) (objectId : string)
    (entityId taskId : option string) : Client promise :=
  request c "POST" ("/objects/" ++ objectId ++ "/references")%string
    (Some (reference_payload entityId taskId)) None.

Definition removeObjectReference (c : AtlasHttpClient) (objectId : string)
    (entityId taskId : option string) : Client promise :=
  request c "DELETE" ("/objects/" ++ objectId ++ "/references")%string
    (Some (reference_payload entityId taskId)) None.

Definition findOrphanedObjects (c : AtlasHttpClient) (limit : option float)
  : Client promise :=
  request c "GET" "/objects/orphaned" None
    (Some [("limit", VNum (default 100%float limit))]).

Definition getObjectReferences (c : AtlasHttpClient) (objectId : string)
  : Client promise :=
  request c "GET" ("/objects/" ++ objectId ++ "/references/info")%string
    None None.

Definition validateObjectReferences (c : AtlasHttpClient) (objectId : string)
  : Client promise :=
  request c "GET" ("/objects/" ++ objectId ++ "/references/validate")%string
    None None.

Definition cleanupObjectReferences (c : AtlasHttpClient) (objectId : string)
  : Client promise :=
  request c "POST" ("/objects/" ++ objectId ++ "/references/cleanup")%string
    (Some []) None.

(** *** Queries *)

Definition getChangedSince (c : AtlasHttpClient) (since : string)
    (limitPerType : option float) : Client promise :=
  request c "GET" "/queries/changed-since" None
    (Some [ ("since", VStr since);
            ("limit_per_type", or_undefined VNum limitPerType) ]).

Record FullDatasetOptions : Type := mkFullDatasetOptions {
  entityLimit : option float;
  taskLimit : option float;
  objectLimit : option float
}.

Definition getFullDataset (c : AtlasHttpClient)
    (options : option FullDatasetOptions) : Client promise :=
  request c "GET" "/queries/full" None
    (Some [ ("entity_limit", or_undefined VNum (opt_field entityLimit options));
            ("task_limit", or_undefined VNum (opt_field taskLimit options));
            ("object_limit",
             or_undefined VNum (opt_field objectLimit options)) ]).

End Methods.

(** ** Every request-building method at once *)

Module Calls.

Import Http Methods.

(** A call of one of the methods that build a single request. *)
Inductive Invocation : Type :=
| GetRoot
| GetHealth
| GetReadiness
| ListEntities (limit offset : option float)
| GetEntity (entityId : string)
| GetEntityByAlias (alias : string)
| CreateEntity (entityId entityType alias subtype : string)
    (components : option JsonRecord)
| UpdateEntity (entityId : string) (components : option JsonRecord)
    (options : option UpdateEntityOptions)
| DeleteEntity (entityId : string)
| UpdateEntityTelemetry (entityId : string) (options : TelemetryOptions)
| CheckinEntity (entityId : string) (telemetry : JsonRecord)
    (options : option CheckinOptions)
| ListTasks (limit : option float) (status : option string)
    (offset : option float)
| GetTask (taskId : string)
| CreateTask (taskId : string) (components : option JsonRecord)
    (options : option TaskOptions)
| UpdateTask (taskId : string) (components : option JsonRecord)
    (options : option TaskOptions)
| DeleteTask (taskId : string)
| GetTasksByEntity (entityId : string) (limit : option float)
    (status : option string) (offset : option float)
| AcknowledgeTask (taskId : string)
| StartTask (taskId : string)
| CompleteTask (taskId : string) (result : option JsonRecord)
| TransitionTaskStatus (taskId status : string)
    (options : option TransitionOptions)
| FailTask (taskId : string) (errorMessage : option string)
    (errorDetails : option JsonRecord)
| ListObjects (limit offset : option float) (contentType type : option string)
| GetObject (objectId : string)
| CreateObjectMetadata (objectId : string)
    (options : option ObjectMetadataOptions)
| UpdateObject (objectId : string) (usageHints : option (list string))
    (referencedBy : option (list ObjectReference))
| DeleteObject (objectId : string)
| GetObjectsByEntity (entityId : string) (limit offset : option float)
| GetObjectsByTask (taskId : string) (limit offset : option float)
| AddObjectReference (objectId : string) (entityId taskId : option string)
| RemoveObjectReference (objectId : string) (entityId taskId : option string)
| FindOrphanedObjects (limit : option float)
| GetObjectReferences (objectId : string)
| ValidateObjectReferences (objectId : string)
| CleanupObjectReferences (objectId : string)
| GetChangedSince (since : string) (limitPerType : option float)
| GetFullDataset (options : option FullDatasetOptions).

Definition promised (m : Client promise) : Client returned :=
  p <- m ;; ret (Promise p).

Definition invoke (c : AtlasHttpClient) (i : Invocation) : Client returned :=
  match i with
  | GetRoot => promised (getRoot c)
  | GetHealth => promised (getHealth c)
  | GetReadiness => promised (getReadiness c)
  | ListEntities limit offset => promised (listEntities c limit offset)
  | GetEntity entityId => promised (getEntity c entityId)
  | GetEntityByAlias alias => promised (getEntityByAlias c alias)
  | CreateEntity entityId entityType alias subtype components =>
      promised (createEntity c entityId entityType alias subtype components)
  | UpdateEntity entityId components options =>
      promised (updateEntity c entityId components options)
  | DeleteEntity entityId => promised (deleteEntity c entityId)
  | UpdateEntityTelemetry entityId options =>
      promised (updateEntityTelemetry c entityId options)
  | CheckinEntity entityId telemetry options =>
      promised (checkinEntity c entityId telemetry options)
  | ListTasks limit status offset => promised (listTasks c limit status offset)
  | GetTask taskId => promised (getTask c taskId)
  | CreateTask taskId components options =>
      promised (createTask c taskId components options)
  | UpdateTask taskId components options =>
      promised (updateTask c taskId components options)
  | DeleteTask taskId => promised (deleteTask c taskId)
  | GetTasksByEntity entityId limit status offset =>
      promised (getTasksByEntity c entityId limit status offset)
  | AcknowledgeTask taskId => promised (acknowledgeTask c taskId)
  | StartTask taskId => promised (startTask c taskId)
  | CompleteTask taskId result => promised (completeTask c taskId result)
  | TransitionTaskStatus taskId status options =>
      promised (transitionTaskStatus c taskId status options)
  | FailTask taskId errorMessage errorDetails =>
      promised (failTask c taskId errorMessage errorDetails)
  | ListObjects limit offset contentType type =>
      promised (listObjects c limit offset contentType type)
  | GetObject objectId => promised (getObject c objectId)
  | CreateObjectMetadata objectId options =>
      promised (createObjectMetadata c objectId options)
  | UpdateObject objectId usageHints referencedBy =>
      updateObject c objectId usageHints referencedBy
  | DeleteObject objectId => promised (deleteObject c objectId)
  | GetObjectsByEntity entityId limit offset =>
      promised (getObjectsByEntity c entityId limit offset)
  | GetObjectsByTask taskId limit offset =>
      promised (getObjectsByTask c taskId limit offset)
  | AddObjectReference objectId entityId taskId =>
      promised (addObjectReference c objectId entityId taskId)
  | RemoveObjectReference objectId entityId taskId =>
      promised (removeObjectReference c objectId entityId taskId)
  | FindOrphanedObjects limit => promised (findOrphanedObjects c limit)
  | GetObjectReferences objectId => promised (getObjectReferences c objectId)
  | ValidateObjectReferences objectId =>
      promised (validateObjectReferences c objectId)
  | CleanupObjectReferences objectId =>
      promised (cleanupObjectReferences c objectId)
  | GetChangedSince since limitPerType =>
      promised (getChangedSince c since limitPerType)
  | GetFullDataset options => promised (getFullDataset c options)
  end.


End Calls.

(** ** The constructor *)

Module Construct.

Import Http.

(** [s.replace(/\/$/, "")]: without the [m] flag [$] is the end of the
    input, so the one [/] that can match is the last character. *)
Fixpoint strip_trailing_slash (s : string) : string :=
  match s with
  | EmptyString => EmptyString
  | String ch EmptyString =>
      if Ascii.eqb ch "/"%char then EmptyString else s
  | String ch rest => String ch (strip_trailing_slash rest)
  end.

Section Constructor.

(** The type of fetch implementations. *)
Variable Fetch : Type.

Record ClientOptions : Type := mkClientOptions {
  opt_baseUrl : string;
  opt_token : option string;
  opt_fetchImpl : option Fetch
}.

(** [new AtlasHttpClient(options)], where [globalFetch] is
    [globalThis.fetch] when that is a function.  The result is the client
    and the fetch implementation it will call. *)
Definition new_AtlasHttpClient (globalFetch : option Fetch)
    (options : ClientOptions) : exn + (AtlasHttpClient * Fetch) :=
  let baseUrl := strip_trailing_slash (opt_baseUrl options) in
  let token := opt_token options in
  let defaultFetch := globalFetch in
  let resolvedFetch :=
    match opt_fetchImpl options with
    | Some f => Some f
    | None => defaultFetch
    end in
  match resolvedFetch with
  | None => inl (Error "fetch is not available; provide fetchImpl")
  | Some f => inr ({| baseUrl := baseUrl; token := token |}, f)
  end.

End Constructor.

End Construct.

(** ** Requests with their responses

    The [async] functions run to completion against a transport that
    answers: [await] of a rejected promise rejects the function's own
    promise, which is the [inl] of the result.  [request] and
    [multipartRequest] are modelled whole here, response handling
    included. *)

Module Async.

Import Methods.

Record File : Type := mkFile {
  (** [file.type], the empty string when unknown *)
  file_type : string;
  (** [file.name]; a [Blob] has none *)
  file_name : option string
}.

Inductive FormValue : Type :=
| FormString (s : string)
| FormFile (file : File) (filename : string).

(** A [FormData], by the entries appended to it. *)
Definition FormData : Type := list (string * FormValue).

(** What [fetchImpl] is called with. *)
Inductive Call : Type :=
| JsonCall (call : Http.FetchCall)
| MultipartCall (url : string) (headers : list (string * string))
    (formData : FormData).

Record Response : Type := mkResponse {
  ok : bool;
  status : nat;
  (** what [response.text()] resolves to *)
  text : string;
  (** how [response.json()] settles *)
  json : exn + value
}.

(** A fetch implementation: its answer to a call, given the calls it has
    received before; [inl] is a rejected promise. *)
Definition Transport : Type := list Call -> Call -> exn + Response.

Definition Async (A : Type) : Type :=
  Transport -> list Call -> (exn + A) * list Call.

Definition ret {A : Type} (a : A) : Async A := fun _ log => (inr a, log).

Definition throw {A : Type} (e : exn) : Async A := fun _ log => (inl e, log).

Definition bind {A B : Type} (m : Async A) (k : A -> Async B) : Async B :=
  fun transport log =>
    match m transport log with
    | (inl e, log') => (inl e, log')
    | (inr a, log') => k a transport log'
    end.

Definition lift {A : Type} (r : exn + A) : Async A := fun _ log => (r, log).

(** [await this.fetchImpl(url, init)] *)
Definition fetchImpl (call : Call) : Async Response :=
  fun transport log => (transport log call, (log ++ [call])%list).

Notation "x <- m ;; k" := (bind m (fun x => k))
  (at level 61, m at next level, right associativity).
Notation "m ;;; k" := (bind m (fun _ => k))
  (at level 61, right associativity).

Definition decimal (n : nat) : string :=
  NilEmpty.string_of_uint (Nat.to_uint n).

Definition http_error_message (status : nat) (detail : string) : string :=
  ("HTTP " ++ decimal status ++ ": " ++ detail)%string.

(** The part of [request] and [multipartRequest] after the response has
    arrived. *)
Definition settle (response : Response) : Async value :=
  if negb (ok response) then
    let detail := text response in
    throw (Error (http_error_message (status response) detail))
  else if Nat.eqb (status response) 204 then ret VUndefined
  else lift (json response).

(** The call [request] makes. *)
Definition request_call (c : Http.AtlasHttpClient) (method path : string)
    (body : option Http.JsonRecord) (params : option Http.JsonRecord) : Http.FetchCall :=
  {| Http.fc_url := (Http.baseUrl c ++ path)%string;
     Http.fc_search := Http.search_params params;
     Http.fc_method := method;
     Http.fc_headers := Http.headers c;
     Http.fc_body := body |}.

Definition request (c : Http.AtlasHttpClient) (method path : string)
    (body : option Http.JsonRecord) (params : option Http.JsonRecord) : Async value :=
  response <- fetchImpl (JsonCall (request_call c method path body params)) ;;
  settle response.

Definition multipartHeaders (c : Http.AtlasHttpClient) : list (string * string) :=
  let headers : list (string * string) := [] in
  match Http.token c with
  | Some t =>
      if String.eqb t "" then headers
      else (headers ++ [("Authorization", ("Bearer " ++ t)%string)])%list
  | None => headers
  end.

Definition multipartRequest (c : Http.AtlasHttpClient) (path : string)
    (formData : FormData) : Async value :=
  response <-
    fetchImpl
      (MultipartCall (Http.baseUrl c ++ path)%string (multipartHeaders c) formData) ;;
  settle response.

(** [stored["object_id"]]: reading a property of [null] or [undefined]
    throws; a value without the property gives [undefined]. *)
Definition stored_object_id (stored : value) : exn + value :=
  match stored with
  | VNull | VUndefined =>
      inl (TypeError "Cannot read properties of null or undefined")
  | VObj entries =>
      match get_prop entries "object_id" with
      | Some v => inr v
      | None => inr VUndefined
      end
  | _ => inr VUndefined
  end.

(** A sequence of awaited calls, one per element. *)
Fixpoint for_await {A : Type} (body : A -> Async value) (xs : list A)
  : Async unit :=
  match xs with
  | [] => ret tt
  | x :: rest => body x ;;; for_await body rest
  end.

Section TemplateLiteral.

(** The conversion a template literal applies to a value it embeds.  A
    string is embedded as it is; of the other values only that the
    conversion returns a string or throws is used. *)
Variable String_of : value -> exn + string.

(** [addObjectReference] as [createObject] calls it, with the
    [object_id] of the upload response for [objectId]. *)
Definition addObjectReference (c : Http.AtlasHttpClient) (objectId : value)
    (entityId taskId : option string) : Async value :=
  let payload := reference_payload entityId taskId in
  objectId <- lift (String_of objectId) ;;
  request c "POST" ("/objects/" ++ objectId ++ "/references")%string
    (Some payload) None.

Definition upload_form (file : File) (objectId : string)
    (usageHint : option string) : FormData :=
  let formData : FormData := [("object_id", FormString objectId)] in
  let filename := default "upload.bin" (file_name file) in
  let formData := (formData ++ [("file", FormFile file filename)])%list in
  match usageHint with
  | Some hint =>
      if String.eqb hint "" then formData
      else (formData ++ [("usage_hint", FormString hint)])%list
  | None => formData
  end.

Definition createObject (c : Http.AtlasHttpClient) (file : File)
    (objectId : string) (usageHint : option string)
    (referencedBy : option (list ObjectReference)) : Async value :=
  let contentType := file_type file in
  if String.eqb contentType "" then
    throw (Error "AtlasHttpClient.createObject requires a content type.")
  else
    let formData := upload_form file objectId usageHint in
    stored <- multipartRequest c "/objects/upload" formData ;;
    storedObjectId <- lift (stored_object_id stored) ;;
    match referencedBy with
    | Some references =>
        if negb (is_undefined storedObjectId) then
          for_await
            (fun reference =>
               addObjectReference c storedObjectId (entity_id reference)
                 (task_id reference))
            references ;;;
          ret stored
        else
          throw (Error
            "AtlasHttpClient.createObject expected the upload response to include an object_id before attaching references.")
    | None => ret stored
    end.

End TemplateLiteral.

End Async.

(** ** Frame guards ([src/package/src/types/guards.ts]) *)

Module Guards.

(** A controller frame, by the fields the guards can see. *)
Record ControllerFrame : Type := mkFrame {
  type : string;
  meta : option value;
  payload : option value
}.

(** The members of [FrameType]. *)
Definition FrameType : list string :=
  [ "handshake"; "handshake:ack"; "heartbeat"; "heartbeat:ack"; "sync";
    "sync:ack"; "subscribe"; "subscribe:ack"; "unsubscribe";
    "unsubscribe:ack"; "event"; "create"; "create:ack"; "update";
    "update:ack"; "delete"; "delete:ack"; "list"; "list:ack"; "get";
    "get:ack"; "error" ].

Definition isSyncAckFrame (frame : ControllerFrame) : bool :=
  String.eqb (type frame) "sync:ack".

Definition isEventFrame (frame : ControllerFrame) : bool :=
  String.eqb (type frame) "event".

Definition isHeartbeatAckFrame (frame : ControllerFrame) : bool :=
  String.eqb (type frame) "heartbeat:ack".

Definition isCreateAckFrame (frame : ControllerFrame) : bool :=
  String.eqb (type frame) "create:ack".

Definition isUpdateAckFrame (frame : ControllerFrame) : bool :=
  String.eqb (type frame) "update:ack".

Definition isDeleteAckFrame (frame : ControllerFrame) : bool :=
  String.eqb (type frame) "delete:ack".

Definition isHandshakeAckFrame (frame : ControllerFrame) : bool :=
  String.eqb (type frame) "handshake:ack".

Definition isErrorFrame (frame : ControllerFrame) : bool :=
  String.eqb (type frame) "error".

(** The eight guards of the file. *)
Definition guards : list (ControllerFrame -> bool) :=
  [ isSyncAckFrame; isEventFrame; isHeartbeatAckFrame; isCreateAckFrame;
    isUpdateAckFrame; isDeleteAckFrame; isHandshakeAckFrame; isErrorFrame ].

End Guards.

(** ** Predicates used in the statements *)

(** No [null] or [undefined] anywhere in the value. *)
Fixpoint null_free (v : value) : bool :=
  match v with
  | VNull | VUndefined => false
  | VArr items => forallb null_free items
  | VObj entries => forallb (fun kv => null_free (snd kv)) entries
  | VBool _ | VNum _ | VStr _ => true
  end.

(** No record, at any depth, has a field bound to [null] or [undefined];
    array elements are unconstrained except for the records inside them. *)
Fixpoint fields_defined (v : value) : bool :=
  match v with
  | VArr items => forallb fields_defined items
  | VObj entries =>
      forallb (fun kv => negb (is_nullish (snd kv)) && fields_defined (snd kv))
        entries
  | _ => true
  end.

(** A record or a sequence. *)
Definition is_container (v : value) : bool :=
  match v with
  | VObj _ | VArr _ => true
  | _ => false
  end.

(** The entries of a record that the stripper keeps, and what it binds
    their keys to. *)
Definition kept (entry : string * value) : bool :=
  negb (is_nullish (snd entry)) && negb (String.eqb (fst entry) "__proto__").

Definition strip_field (entry : string * value) : string * value :=
  (fst entry, stripValue (snd entry)).

(** Keys that are pairwise different. *)
Fixpoint distinct (keys : list string) : bool :=
  match keys with
  | [] => true
  | key :: rest => negb (existsb (String.eqb key) rest) && distinct rest
  end.

(** A payload with nothing to strip: no [null] or [undefined] anywhere,
    and every record with distinct keys, none of them [__proto__]. *)
Fixpoint plain (v : value) : bool :=
  match v with
  | VNull | VUndefined => false
  | VArr items => forallb plain items
  | VObj entries =>
      distinct (Object_keys entries)
      && negb (existsb (String.eqb "__proto__") (Object_keys entries))
      && forallb (fun kv => plain (snd kv)) entries
  | VBool _ | VNum _ | VStr _ => true
  end.

(** The kind of a value, as the tests of [stripValue] tell them apart. *)
Inductive kind : Type :=
| KAbsent
| KScalar
| KSequence (length : nat)
| KRecord.

Definition kind_of (v : value) : kind :=
  match v with
  | VNull | VUndefined => KAbsent
  | VArr items => KSequence (List.length items)
  | VObj _ => KRecord
  | VBool _ | VNum _ | VStr _ => KScalar
  end.


(** No top-level field of a record is bound to [null] or [undefined]. *)
Definition top_defined (body : list (string * value)) : Prop :=
  Forall (fun kv => is_nullish (snd kv) = false) body.

(** The invocations whose body can bind a key to [undefined]:
    [createObjectMetadata] writes every option into its object literal,
    and [checkinEntity] spreads the telemetry object it is given. *)
Definition may_send_undefined (i : Calls.Invocation) : bool :=
  match i with
  | Calls.CreateObjectMetadata _ _ | Calls.CheckinEntity _ _ _ => true
  | _ => false
  end.

(** The upload call of [createObject], and the call that attaches one
    reference to the stored object [storedObjectId]. *)
Definition upload_call (c : Http.AtlasHttpClient) (file : Async.File)
    (objectId : string) (usageHint : option string) : Async.Call :=
  Async.MultipartCall (Http.baseUrl c ++ "/objects/upload")%string
    (Async.multipartHeaders c) (Async.upload_form file objectId usageHint).

Definition reference_call (c : Http.AtlasHttpClient) (storedObjectId : string)
    (reference : Methods.ObjectReference) : Async.Call :=
  Async.JsonCall
    (Async.request_call c "POST"
       ("/objects/" ++ storedObjectId ++ "/references")%string
       (Some (Methods.reference_payload (Methods.entity_id reference)
                (Methods.task_id reference)))
       None).

(** The transport answers [call], whenever it comes, with a response that
    [settle] resolves. *)
Definition answers_ok (transport : Async.Transport) (call : Async.Call)
  : Prop :=
  forall log, exists r,
    transport log call = inr r
    /\ Async.ok r = true
    /\ (Async.status r = 204 \/ exists v, Async.json r = inr v).

(** A template literal embeds a string as it is. *)
Definition embeds_strings (String_of : value -> exn + string) : Prop :=
  forall s, String_of (VStr s) = inr s.

(** The upload scenario of the package's tests. *)
Module Scenario.

(** A conversion defined on strings only, which is all the scenario
    embeds in a path. *)
Definition strings_only (v : value) : exn + string :=
  match v with
  | VStr s => inr s
  | _ => inl (TypeError "conversion of a non-string")
  end.

Definition answer (body : value) : Async.Response :=
  {| Async.ok := true; Async.status := 200; Async.text := "";
     Async.json := inr body |}.

Definition not_found : Async.Response :=
  {| Async.ok := false; Async.status := 404; Async.text := "not found";
     Async.json := inl (Error "Unexpected token") |}.

Definition stored : list (string * value) := [("object_id", VStr "obj-123")].

(** The recording transport of the tests: the upload is answered with
    [{object_id: "obj-123"}], everything else with [{success: true}]. *)
Definition recorder : Async.Transport :=
  fun _ call =>
    match call with
    | Async.MultipartCall _ _ _ => inr (answer (VObj stored))
    | Async.JsonCall _ => inr (answer (VObj [("success", VBool true)]))
    end.

(** A transport that refuses references to tasks. *)
Definition no_task_references : Async.Transport :=
  fun _ call =>
    match call with
    | Async.MultipartCall _ _ _ => inr (answer (VObj stored))
    | Async.JsonCall request =>
        match Http.fc_body request with
        | Some body =>
            match get_prop body "task_id" with
            | Some _ => inr not_found
            | None => inr (answer (VObj [("success", VBool true)]))
            end
        | None => inr (answer (VObj [("success", VBool true)]))
        end
    end.

(** [new File(["abc"], "test.bin", { type: "application/octet-stream" })] *)
Definition uploadFile : Async.File :=
  {| Async.file_type := "application/octet-stream";
     Async.file_name := Some "test.bin" |}.

Definition to_entity (id : string) : Methods.ObjectReference :=
  {| Methods.entity_id := Some id; Methods.task_id := None |}.

Definition to_task (id : string) : Methods.ObjectReference :=
  {| Methods.entity_id := None; Methods.task_id := Some id |}.

End Scenario.

(** A key the validator lets through, stated without the code's tests. *)
Definition accepted (key : string) : Prop :=
  In key
    [ "telemetry"; "geometry"; "task_catalog"; "media_refs"; "mil_view";
      "health"; "sensor_refs"; "communications"; "task_queue"; "status";
      "heartbeat" ]
  \/ exists suffix, key = ("custom_" ++ suffix)%string.

(** The values of the specification's examples. *)
Module Examples.

Definition num (n : float) : value := VNum n.

(** [{a: 1, b: null, c: undefined}] *)
Definition abc : value :=
  VObj [("a", num 1); ("b", VNull); ("c", VUndefined)].

(** [{polygon: [[1,2],[null,null],[3,4]]}] *)
Definition polygon : value :=
  VObj [("polygon",
         VArr [ VArr [num 1; num 2]; VArr [VNull; VNull];
                VArr [num 3; num 4] ])].

(** [{telemetry: {latitude: undefined}}] *)
Definition telemetry_latitude_undefined : value :=
  VObj [("telemetry", VObj [("latitude", VUndefined)])].

(** The client and the task components of the package's tests. *)
Definition client : Http.AtlasHttpClient :=
  {| Http.baseUrl := "http://atlas.local"; Http.token := Some "test-token" |}.

(** [{payload: "start"}] *)
Definition payload_start : Http.JsonRecord := [("payload", VStr "start")].

(** The call [createTask("task-1", {payload: "start"})] hands to the
    transport. *)
Definition task_call : Http.FetchCall :=
  {| Http.fc_url := "http://atlas.local/tasks";
     Http.fc_search := [];
     Http.fc_method := "POST";
     Http.fc_headers :=
       [ ("Content-Type", "application/json");
         ("Authorization", "Bearer test-token") ];
     Http.fc_body :=
       Some [ ("task_id", VStr "task-1"); ("status", VStr "pending");
              ("components", VObj [("payload", VStr "start")]) ] |}.

(** [{unknown_key: "value"}] *)
Definition unknown_key : Http.JsonRecord := [("unknown_key", VStr "value")].

End Examples.

(** A method that takes a component mapping validates it before anything
    reaches the transport: when the validator rejects the mapping, the
    method throws the validator's error and the log of transport calls is
    unchanged. *)
Definition aborts_on_invalid
    (method : option Http.JsonRecord -> Http.Client Http.promise) : Prop :=
  forall components e log,
    validateEntityComponents components = inl e ->
    method (Some components) log = (inl e, log).

(** The body of a call binds [components] to the normalized mapping. *)
Definition sends_components (call : Http.FetchCall)
    (components : Http.JsonRecord) : Prop :=
  exists body,
    Http.fc_body call = Some body
    /\ get_prop body "components"
       = Some (componentsToRecord (VObj components)).

(** ** Facts about the validator *)

Section Validator.

Lemma prefix_split (p s : string) :
  String.prefix p s = true <-> exists t, s = (p ++ t)%string.
Proof.
  revert s. induction p as [|c p IH]; intros s.
  - split; [exists s; reflexivity | intros _; destruct s; reflexivity].
  - destruct s as [|d s]; simpl.
    + split; [discriminate | intros [t Ht]; discriminate].
    + destruct (Ascii.ascii_dec c d) as [->|Hcd].
      * rewrite IH. split; intros [t Ht]; exists t.
        -- now rewrite Ht.
        -- now inversion Ht.
      * split; [discriminate | intros [t Ht]; inversion Ht; congruence].
Qed.

Lemma known_has_In (key : string) :
  known_has key = true <-> In key KNOWN_ENTITY_COMPONENTS.
Proof.
  unfold known_has. rewrite existsb_exists. split.
  - intros [k [Hin Heq]]. apply String.eqb_eq in Heq. now subst.
  - intros Hin. exists key. split; [assumption | apply String.eqb_refl].
Qed.

Lemma key_accepted_iff (key : string) :
  key_accepted key = true <-> accepted key.
Proof.
  unfold key_accepted, accepted, startsWith.
  rewrite orb_true_iff, known_has_In, prefix_split. reflexivity.
Qed.

Lemma key_rejected_iff (key : string) :
  negb (known_has key) && negb (startsWith key "custom_") = true
  <-> ~ accepted key.
Proof.
  rewrite <- key_accepted_iff. unfold key_accepted.
  destruct (known_has key), (startsWith key "custom_"); simpl;
    split; intros H; try discriminate; try reflexivity;
    try (exfalso; apply H; reflexivity); intros Hc; discriminate.
Qed.

Lemma accepted_dec (key : string) : {accepted key} + {~ accepted key}.
Proof.
  destruct (key_accepted key) eqn:E.
  - left. now apply key_accepted_iff.
  - right. intros H. apply key_accepted_iff in H. congruence.
Qed.

Lemma validate_keys_ok (keys : list string) :
  validate_keys keys = inr tt <-> Forall accepted keys.
Proof.
  induction keys as [|key rest IH]; simpl.
  - split; [constructor | reflexivity].
  - destruct (negb (known_has key) && negb (startsWith key "custom_")) eqn:E.
    + apply key_rejected_iff in E. split; [discriminate|].
      intros H. inversion H; contradiction.
    + assert (Hk : accepted key).
      { destruct (accepted_dec key) as [Hk|Hk]; [assumption|].
        apply key_rejected_iff in Hk. congruence. }
      rewrite IH. split; intros H; [now constructor | now inversion H].
Qed.

(** The loop stops at the first key that is not accepted. *)
Lemma validate_keys_first (pre post : list string) (key : string) :
  Forall accepted pre -> ~ accepted key ->
  validate_keys (pre ++ key :: post)
  = inl (Error (unknown_component_message key)).
Proof.
  intros Hpre Hkey. induction Hpre as [|k pre Hk _ IH]; simpl.
  - apply key_rejected_iff in Hkey. now rewrite Hkey.
  - destruct (negb (known_has k) && negb (startsWith k "custom_")) eqn:E.
    + apply key_rejected_iff in E. contradiction.
    + exact IH.
Qed.

(** A list with a rejected key splits at its first rejected key. *)
Lemma first_rejected (keys : list string) :
  (exists key, In key keys /\ ~ accepted key) ->
  exists pre key post,
    keys = pre ++ key :: post /\ Forall accepted pre /\ ~ accepted key.
Proof.
  induction keys as [|k rest IH]; intros [key [Hin Hrej]].
  - contradiction.
  - destruct (accepted_dec k) as [Hk|Hk].
    + destruct Hin as [->|Hin]; [contradiction|].
      destruct IH as (pre & key' & post & -> & Hpre & Hrej').
      { now exists key. }
      exists (k :: pre), key', post. repeat split; [now constructor | assumption].
    + exists [], k, rest. repeat split; [constructor | assumption].
Qed.

End Validator.

(** C1. [validateEntityComponents] returns normally exactly when every
    top-level key is one of the eleven known component names or starts with
    [custom_]; the empty mapping and the key [custom_] itself are valid; a
    mapping with a key that is neither fails with the unknown-component
    error. *)
Theorem validateEntityComponents_valid_iff :
  (forall m : list (string * value),
      validateEntityComponents m = inr tt
      <-> forall key, In key (Object_keys m) -> accepted key)
  /\ validateEntityComponents [] = inr tt
  /\ (forall v, validateEntityComponents [("custom_", v)] = inr tt)
  /\ (forall m : list (string * value),
        (exists key, In key (Object_keys m) /\ ~ accepted key) ->
        exists key,
          In key (Object_keys m) /\ ~ accepted key /\
          validateEntityComponents m
          = inl (Error (unknown_component_message key))).
Proof.
  split; [|split; [|split]].
  - intros m. unfold validateEntityComponents.
    rewrite validate_keys_ok. apply Forall_forall.
  - reflexivity.
  - intros v. reflexivity.
  - intros m Hex. unfold validateEntityComponents.
    destruct (first_rejected _ Hex) as (pre & key & post & E & Hpre & Hrej).
    exists key. rewrite E. split; [|split].
    + apply in_or_app. right. now left.
    + assumption.
    + now apply validate_keys_first.
Qed.

Section ErrorMessage.

Lemma list_ascii_of_append (s t : string) :
  list_ascii_of_string (s ++ t)
  = (list_ascii_of_string s ++ list_ascii_of_string t)%list.
Proof.
  induction s as [|c s IH]; simpl; [reflexivity | now rewrite IH].
Qed.

Lemma append_inv_head (p s t : string) :
  (p ++ s)%string = (p ++ t)%string -> s = t.
Proof.
  induction p as [|c p IH]; simpl; intros H; [assumption|].
  inversion H. auto.
Qed.

Lemma append_inv_tail (s t q : string) :
  (s ++ q)%string = (t ++ q)%string -> s = t.
Proof.
  intros H. apply (f_equal list_ascii_of_string) in H.
  rewrite !list_ascii_of_append in H. apply app_inv_tail in H.
  rewrite <- (string_of_list_ascii_of_string s),
          <- (string_of_list_ascii_of_string t).
  now rewrite H.
Qed.

(** The message determines the key it names. *)
Lemma unknown_component_message_inj (k1 k2 : string) :
  unknown_component_message k1 = unknown_component_message k2 -> k1 = k2.
Proof.
  unfold unknown_component_message. intros H.
  apply append_inv_head in H. now apply append_inv_tail in H.
Qed.

End ErrorMessage.

(** C7. When a mapping has offending keys, the error names the earliest of
    them in the order [Object.keys] enumerates the mapping: every key before
    it is accepted, and the message names no other key. *)
Theorem validateEntityComponents_first_offending (m : list (string * value)) :
  (exists key, In key (Object_keys m) /\ ~ accepted key) ->
  exists pre key post,
    Object_keys m = pre ++ key :: post
    /\ Forall accepted pre
    /\ ~ accepted key
    /\ validateEntityComponents m = inl (Error (unknown_component_message key))
    /\ forall key',
         validateEntityComponents m
         = inl (Error (unknown_component_message key')) ->
         key' = key.
Proof.
  intros Hex.
  destruct (first_rejected _ Hex) as (pre & key & post & E & Hpre & Hrej).
  exists pre, key, post.
  assert (Hv : validateEntityComponents m
               = inl (Error (unknown_component_message key))).
  { unfold validateEntityComponents. rewrite E.
    now apply validate_keys_first. }
  repeat (split; [assumption|]).
  intros key' Hv'. rewrite Hv in Hv'.
  apply unknown_component_message_inj. congruence.
Qed.

(** C8. Validation looks at the top-level keys only: two mappings with the
    same keys in the same order get the same outcome, whatever values the
    keys are bound to. *)
Theorem validateEntityComponents_shallow (m1 m2 : list (string * value)) :
  Object_keys m1 = Object_keys m2 ->
  validateEntityComponents m1 = validateEntityComponents m2.
Proof.
  intros Hkeys. unfold validateEntityComponents. now rewrite Hkeys.
Qed.

(** ** Facts about the stripper *)

Section Stripper.

Lemma is_nullish_cases (v : value) :
  is_nullish v = true -> v = VNull \/ v = VUndefined.
Proof. destruct v; simpl; intros H; try discriminate; auto. Qed.

Lemma stripValue_not_nullish (v : value) :
  is_nullish v = false -> is_nullish (stripValue v) = false.
Proof. destruct v; simpl; intros H; try discriminate; reflexivity. Qed.

Lemma stripValue_defined (v : value) :
  is_nullish v = false -> is_undefined (stripValue v) = false.
Proof. destruct v; simpl; intros H; try discriminate; reflexivity. Qed.

(** The loop body, with the test [stripped !== undefined] resolved: it
    never fails for a value that passed the null test. *)
Lemma strip_entry_eq (nested : list (string * value)) (key : string)
    (innerValue : value) :
  strip_entry stripValue nested (key, innerValue)
  = if is_nullish innerValue then nested
    else set_prop nested key (stripValue innerValue).
Proof.
  unfold strip_entry. destruct (is_nullish innerValue) eqn:E; [reflexivity|].
  now rewrite stripValue_defined.
Qed.

Lemma assign_own_fresh (o : list (string * value)) (key : string) (v : value) :
  ~ In key (Object_keys o) -> assign_own o key v = o ++ [(key, v)].
Proof.
  induction o as [|[k w] o IH]; simpl; intros Hfresh; [reflexivity|].
  destruct (String.eqb_spec k key) as [->|Hne].
  - exfalso. apply Hfresh. now left.
  - rewrite IH; [reflexivity|]. intros Hin. apply Hfresh. now right.
Qed.

Lemma assign_own_keys (o : list (string * value)) (key : string) (v : value) :
  Object_keys (assign_own o key v)
  = if existsb (String.eqb key) (Object_keys o) then Object_keys o
    else Object_keys o ++ [key].
Proof.
  induction o as [|[k w] o IH]; simpl; [reflexivity|].
  rewrite (String.eqb_sym key k).
  destruct (String.eqb_spec k key) as [->|Hne]; simpl; [reflexivity|].
  rewrite IH. now destruct (existsb (String.eqb key) (Object_keys o)).
Qed.

Lemma assign_own_NoDup (o : list (string * value)) (key : string) (v : value) :
  NoDup (Object_keys o) -> NoDup (Object_keys (assign_own o key v)).
Proof.
  intros Hnd. rewrite assign_own_keys.
  destruct (existsb (String.eqb key) (Object_keys o)) eqn:E; [assumption|].
  apply NoDup_app; [assumption | repeat constructor; intros [] |].
  intros k Hin [Hk|[]]. subst k.
  assert (existsb (String.eqb key) (Object_keys o) = true); [|congruence].
  apply existsb_exists. exists key. split; [assumption | apply String.eqb_refl].
Qed.

Lemma assign_own_Forall (R : string * value -> Prop)
    (o : list (string * value)) (key : string) (v : value) :
  Forall R o -> R (key, v) -> Forall R (assign_own o key v).
Proof.
  intros Ho Hv. induction o as [|[k w] o IH]; simpl.
  - now constructor.
  - inversion Ho as [|? ? Hk Ho']; subst.
    destruct (String.eqb_spec k key) as [->|Hne]; constructor; auto.
Qed.

(** For a record with distinct keys the loop is a filter followed by a
    map, appended to what was there. *)
Lemma fold_strip_entry_unique (entries acc : list (string * value)) :
  NoDup (Object_keys acc ++ Object_keys entries) ->
  fold_left (strip_entry stripValue) entries acc
  = acc ++ map strip_field (filter kept entries).
Proof.
  unfold Object_keys. revert acc.
  induction entries as [|[k v] rest IH]; intros acc Hnd.
  - simpl. now rewrite app_nil_r.
  - cbn [fold_left filter]. rewrite strip_entry_eq.
    unfold kept at 1. cbn [fst snd map] in Hnd |- *.
    pose proof (NoDup_remove_1 _ _ _ Hnd) as Hrest.
    pose proof (NoDup_remove_2 _ _ _ Hnd) as Hk.
    destruct (is_nullish v); cbn [negb andb]; [now apply IH|].
    unfold set_prop. destruct (String.eqb k "__proto__"); cbn [negb];
      [now apply IH|].
    rewrite assign_own_fresh.
    + rewrite IH.
      * cbn [map]. unfold strip_field at 1. cbn [fst snd].
        now rewrite <- app_assoc.
      * rewrite map_app, <- app_assoc. exact Hnd.
    + intros Hin. apply Hk. apply in_or_app. now left.
Qed.

(** What holds of every entry the loop may add holds of the result. *)
Lemma fold_strip_entry_Forall (R : string * value -> Prop)
    (entries : list (string * value)) :
  Forall (fun kv => kept kv = true -> R (strip_field kv)) entries ->
  forall acc, Forall R acc ->
    Forall R (fold_left (strip_entry stripValue) entries acc).
Proof.
  induction entries as [|[k v] rest IH]; intros Hall acc Hacc;
    cbn [fold_left]; [assumption|].
  inversion Hall as [|? ? Hkv Hrest]; subst.
  apply IH; [assumption|]. rewrite strip_entry_eq. unfold kept, strip_field in Hkv.
  simpl in Hkv. destruct (is_nullish v); [assumption|].
  unfold set_prop. destruct (String.eqb k "__proto__"); [assumption|].
  apply assign_own_Forall; auto.
Qed.

Lemma fold_strip_entry_NoDup (entries acc : list (string * value)) :
  NoDup (Object_keys acc) ->
  NoDup (Object_keys (fold_left (strip_entry stripValue) entries acc)).
Proof.
  revert acc. induction entries as [|[k v] rest IH]; intros acc Hnd;
    cbn [fold_left]; [assumption|].
  apply IH. rewrite strip_entry_eq. destruct (is_nullish v); [assumption|].
  unfold set_prop. destruct (String.eqb k "__proto__"); [assumption|].
  now apply assign_own_NoDup.
Qed.

Lemma get_prop_In (o : list (string * value)) (key : string) (v : value) :
  NoDup (Object_keys o) -> In (key, v) o -> get_prop o key = Some v.
Proof.
  unfold Object_keys. induction o as [|[k w] o IH]; simpl; intros Hnd Hin;
    [contradiction|].
  inversion Hnd as [|? ? Hk Hnd']; subst.
  destruct Hin as [E|Hin].
  - inversion E; subst. now rewrite String.eqb_refl.
  - destruct (String.eqb_spec k key) as [->|Hne]; [|now apply IH].
    exfalso. apply Hk. apply in_map_iff. now exists (key, v).
Qed.

Lemma get_prop_None (o : list (string * value)) (key : string) :
  ~ In key (Object_keys o) -> get_prop o key = None.
Proof.
  unfold Object_keys. induction o as [|[k w] o IH]; simpl; intros Hnot;
    [reflexivity|].
  destruct (String.eqb_spec k key) as [->|Hne].
  - exfalso. apply Hnot. now left.
  - apply IH. intros Hin. apply Hnot. now right.
Qed.

(** The record case for distinct keys, in closed form. *)
Lemma stripValue_record_unique (entries : list (string * value)) :
  NoDup (Object_keys entries) ->
  stripValue (VObj entries) = VObj (map strip_field (filter kept entries)).
Proof.
  intros Hnd. cbn [stripValue]. now rewrite fold_strip_entry_unique.
Qed.

End Stripper.

Section Totality.

Import Run.

Lemma map_items_returns (f : value -> outcome value) (g : value -> value)
    (items : list value) :
  Forall (fun item => f item = Returned (g item)) items ->
  map_items f items = Returned (map g items).
Proof.
  induction 1 as [|item rest Hitem _ IH]; cbn [map_items map];
    [reflexivity|].
  now rewrite Hitem, IH.
Qed.

Lemma for_of_returns {A S : Type} (body : S -> A -> outcome S)
    (g : S -> A -> S) (xs : list A) :
  Forall (fun x => forall s, body s x = Returned (g s x)) xs ->
  forall s, for_of body xs s = Returned (fold_left g xs s).
Proof.
  induction 1 as [|x rest Hx _ IH]; intros s; cbn [for_of fold_left];
    [reflexivity|].
  rewrite Hx. apply IH.
Qed.

Lemma nesting_item (items : list value) (item : value) :
  In item items ->
  nesting item
  <= fold_right (fun item d => Nat.max (nesting item) d) 0 items.
Proof.
  induction items as [|x rest IH]; simpl; intros Hin; [contradiction|].
  destruct Hin as [->|Hin]; [lia|]. specialize (IH Hin). lia.
Qed.

Lemma nesting_entry (entries : list (string * value)) (kv : string * value) :
  In kv entries ->
  nesting (snd kv)
  <= fold_right (fun kv d => Nat.max (nesting (snd kv)) d) 0 entries.
Proof.
  induction entries as [|x rest IH]; simpl; intros Hin; [contradiction|].
  destruct Hin as [->|Hin]; [lia|]. specialize (IH Hin). lia.
Qed.

Lemma run_stripValue_returns (v : value) :
  forall depth, nesting v <= depth ->
    run_stripValue depth v = Returned (stripValue v).
Proof.
  induction v as [| |b|n|s|items IH|entries IH] using value_ind;
    intros [|depth] Hdepth; cbn [nesting] in Hdepth; try lia;
    try reflexivity.
  - cbn [run_stripValue is_nullish is_null is_undefined orb Array_isArray
         Array_map stripValue].
    rewrite (map_items_returns _ (strip_item stripValue)); [reflexivity|].
    apply Forall_forall. intros item Hin. unfold strip_item.
    destruct (is_nullish item); [reflexivity|].
    rewrite Forall_forall in IH. apply IH; [assumption|].
    pose proof (nesting_item _ _ Hin). lia.
  - cbn [run_stripValue is_nullish is_null is_undefined orb Array_isArray
         typeof Object_entries bind stripValue].
    change (String.eqb "object" "object") with true. cbn iota.
    rewrite (for_of_returns _ (strip_entry stripValue)); [reflexivity|].
    apply Forall_forall. intros [k w] Hin nested. unfold strip_entry.
    destruct (is_nullish w); [reflexivity|].
    rewrite Forall_forall in IH. rewrite (IH _ Hin).
    + cbn [bind snd]. now destruct (negb (is_undefined (stripValue w))).
    + pose proof (nesting_entry _ _ Hin). cbn [snd] in *. lia.
Qed.

(** With a single frame available nothing can be recursed into: elements
    and fields that are [null] or [undefined] are dealt with in the frame
    that meets them. *)
Lemma run_stripValue_nullish_items (items : list value) :
  Forall (fun item => is_nullish item = true) items ->
  run_stripValue 1 (VArr items) = Returned (VArr items).
Proof.
  intros Hall. cbn [run_stripValue is_nullish is_null is_undefined orb
                    Array_isArray Array_map].
  rewrite (map_items_returns _ (fun item => item)).
  - cbn [bind]. now rewrite map_id.
  - apply Forall_impl with (2 := Hall). intros item E. now rewrite E.
Qed.

Lemma run_stripValue_nullish_entries (entries : list (string * value)) :
  Forall (fun kv => is_nullish (snd kv) = true) entries ->
  run_stripValue 1 (VObj entries) = Returned (VObj []).
Proof.
  intros Hall. cbn [run_stripValue is_nullish is_null is_undefined orb
                    Array_isArray typeof Object_entries bind].
  change (String.eqb "object" "object") with true. cbn iota.
  rewrite (for_of_returns _ (fun nested _ => nested)).
  - cbn [bind]. f_equal. clear Hall. now induction entries.
  - apply Forall_impl with (2 := Hall). intros [k w] E nested.
    cbn [snd] in E. now rewrite E.
Qed.

End Totality.

(** C6. The stripper terminates and never throws: for every value, a
    finite tree of scalars, sequences, records, [null] and [undefined], a
    call stack as deep as the value is nested is enough for the run to
    return, and what it returns is [stripValue] of the input. *)
Theorem stripNulls_total (v : value) (depth : nat) :
  nesting v <= depth ->
  Run.run_stripNulls depth v = Run.Returned (stripNulls v).
Proof.
  apply run_stripValue_returns.
Qed.

(** C2. Records and sequences are treated differently.  A record with
    distinct keys loses exactly its fields bound to [null] or [undefined]
    (and an own [__proto__] field, which the assignment cannot create); its
    other fields keep their keys and are normalized.  A sequence keeps its
    length and every position: a [null] or [undefined] element stays as it
    is, any other element is normalized.  Neither is recursed into: a
    record or sequence of nothing but [null] and [undefined] is processed
    within a single frame.  The two examples of the specification evaluate
    as it says. *)
Theorem stripValue_records_vs_sequences :
  (forall entries : list (string * value),
      NoDup (Object_keys entries) ->
      exists nested,
        stripValue (VObj entries) = VObj nested
        /\ (forall key v, In (key, v) entries -> is_nullish v = true ->
              get_prop nested key = None)
        /\ (forall key v, In (key, v) entries -> is_nullish v = false ->
              key <> "__proto__" ->
              get_prop nested key = Some (stripValue v)))
  /\ (forall items : list value,
        exists items',
          stripValue (VArr items) = VArr items'
          /\ List.length items' = List.length items
          /\ forall i item, nth_error items i = Some item ->
               nth_error items' i
               = Some (if is_nullish item then item else stripValue item))
  /\ (forall entries : list (string * value),
        Forall (fun kv => is_nullish (snd kv) = true) entries ->
        Run.run_stripValue 1 (VObj entries) = Run.Returned (VObj []))
  /\ (forall items : list value,
        Forall (fun item => is_nullish item = true) items ->
        Run.run_stripValue 1 (VArr items) = Run.Returned (VArr items))
  /\ stripNulls Examples.abc = VObj [("a", Examples.num 1)]
  /\ stripNulls Examples.polygon = Examples.polygon.
Proof.
  split; [|split; [|split; [|split; [|split]]]];
    [| | apply run_stripValue_nullish_entries
         | apply run_stripValue_nullish_items | |].
  - intros entries Hnd. exists (map strip_field (filter kept entries)).
    split; [now apply stripValue_record_unique|]. split.
    + intros key v Hin Hnull. apply get_prop_None.
      unfold Object_keys. rewrite map_map. cbn [strip_field fst].
      intros Hkey. apply in_map_iff in Hkey as [[k v0] [Hk Hkv]].
      cbn [fst] in Hk. subst k. apply filter_In in Hkv as [Hin0 Hkept].
      pose proof (get_prop_In _ _ _ Hnd Hin) as E.
      rewrite (get_prop_In _ _ _ Hnd Hin0) in E. inversion E; subst v0.
      unfold kept in Hkept. cbn [snd] in Hkept. now rewrite Hnull in Hkept.
    + intros key v Hin Hnull Hproto.
      assert (Hnd' : NoDup (Object_keys (map strip_field (filter kept entries)))).
      { rewrite <- (app_nil_l (map _ _)), <- fold_strip_entry_unique by assumption.
        apply fold_strip_entry_NoDup. constructor. }
      apply get_prop_In; [assumption|].
      apply in_map_iff. exists (key, v). split; [reflexivity|].
      apply filter_In. split; [assumption|].
      unfold kept. cbn [fst snd]. rewrite Hnull.
      apply String.eqb_neq in Hproto. now rewrite Hproto.
  - intros items. exists (map (strip_item stripValue) items).
    split; [reflexivity|]. split; [apply length_map|].
    intros i item Hi. now rewrite nth_error_map, Hi.
  - reflexivity.
  - reflexivity.
Qed.

(** C3. [componentsToRecord(undefined)] is [undefined]; a top-level
    mapping always comes back as a record, the empty one when every field
    is dropped; and [{telemetry: {latitude: undefined}}] becomes
    [{telemetry: {}}]. *)
Theorem componentsToRecord_record :
  componentsToRecord VUndefined = VUndefined
  /\ (forall entries : list (string * value),
        exists nested,
          componentsToRecord (VObj entries) = VObj nested
          /\ is_undefined (componentsToRecord (VObj entries)) = false)
  /\ (forall entries : list (string * value),
        Forall (fun kv => is_nullish (snd kv) = true) entries ->
        componentsToRecord (VObj entries) = VObj [])
  /\ componentsToRecord Examples.telemetry_latitude_undefined
     = VObj [("telemetry", VObj [])].
Proof.
  split; [reflexivity|]. split; [|split; [|reflexivity]].
  - intros entries. eexists. split; reflexivity.
  - intros entries Hall. unfold componentsToRecord, stripNulls.
    cbn [is_undefined stripValue]. f_equal.
    induction Hall as [|[k v] rest Hkv _ IH]; cbn [fold_left];
      [reflexivity|].
    rewrite strip_entry_eq. cbn [snd] in Hkv. now rewrite Hkv.
Qed.

(** C10. A top-level [null] passes the [undefined] test of
    [componentsToRecord] and is turned into [undefined] by the first branch
    of [stripValue]; the result is not an empty record. *)
Theorem componentsToRecord_null :
  is_undefined VNull = false
  /\ componentsToRecord VNull = VUndefined
  /\ componentsToRecord VNull <> VObj [].
Proof.
  split; [reflexivity|]. split; [reflexivity|]. discriminate.
Qed.

Section OutputInvariant.

Lemma forallb_Forall {A : Type} (p : A -> bool) (l : list A) :
  forallb p l = true <-> Forall (fun x => p x = true) l.
Proof.
  rewrite forallb_forall, Forall_forall. reflexivity.
Qed.

Lemma stripValue_fields_defined (v : value) :
  fields_defined (stripValue v) = true.
Proof.
  induction v as [| |b|n|s|items IH|entries IH] using value_ind;
    try reflexivity.
  - cbn [stripValue fields_defined]. apply forallb_Forall.
    apply Forall_map. apply Forall_impl with (2 := IH). intros item Hitem.
    unfold strip_item. destruct (is_nullish item) eqn:E; [|assumption].
    now destruct (is_nullish_cases _ E) as [-> | ->].
  - cbn [stripValue fields_defined]. apply forallb_Forall.
    apply fold_strip_entry_Forall; [|constructor].
    apply Forall_impl with (2 := IH). intros [k v] Hv Hkept.
    unfold kept in Hkept. cbn [strip_field fst snd] in *.
    apply andb_true_iff in Hkept as [Hnn _]. apply negb_true_iff in Hnn.
    now rewrite (stripValue_not_nullish _ Hnn), Hv.
Qed.

End OutputInvariant.

(** C9. In the result of [stripValue], and so of [componentsToRecord], no
    record at any depth, inside sequences too, has a field bound to [null]
    or [undefined]. *)
Theorem stripValue_output_fields_defined (v : value) :
  fields_defined (stripValue v) = true
  /\ fields_defined (stripNulls v) = true
  /\ fields_defined (componentsToRecord v) = true.
Proof.
  split; [|split]; try apply stripValue_fields_defined.
  unfold componentsToRecord.
  destruct (is_undefined v); [reflexivity | apply stripValue_fields_defined].
Qed.

Section Idempotence.

(** A record the stripper leaves as it is: distinct keys, none of them
    [__proto__], every field defined and itself a fixed point. *)
Lemma stripValue_record_fixed (entries : list (string * value)) :
  NoDup (Object_keys entries) ->
  Forall (fun kv => kept kv = true /\ strip_field kv = kv) entries ->
  stripValue (VObj entries) = VObj entries.
Proof.
  intros Hnd Hall. rewrite stripValue_record_unique by assumption. f_equal.
  clear Hnd. induction Hall as [|kv rest [Hkept Hfix] _ IH]; [reflexivity|].
  cbn [filter]. rewrite Hkept. cbn [map]. now rewrite Hfix, IH.
Qed.

(** One pass reaches a fixed point, whatever the input. *)
Lemma stripValue_idempotent (v : value) :
  stripValue (stripValue v) = stripValue v.
Proof.
  induction v as [| |b|n|s|items IH|entries IH] using value_ind;
    try reflexivity.
  - cbn [stripValue]. f_equal. rewrite map_map. apply map_ext_Forall.
    apply Forall_impl with (2 := IH). intros item Hitem. unfold strip_item.
    destruct (is_nullish item) eqn:E.
    + now rewrite E.
    + now rewrite (stripValue_not_nullish _ E).
  - cbn [stripValue]. apply stripValue_record_fixed.
    + apply fold_strip_entry_NoDup. constructor.
    + apply fold_strip_entry_Forall; [|constructor].
      apply Forall_impl with (2 := IH). intros [k v] Hv Hkept.
      unfold kept in Hkept |- *. unfold strip_field. cbn [fst snd] in *.
      apply andb_true_iff in Hkept as [Hnn Hproto].
      apply negb_true_iff in Hnn.
      rewrite (stripValue_not_nullish _ Hnn), Hproto, Hv. now split.
Qed.

End Idempotence.

(** C5. For a record or sequence with no [null] or [undefined] anywhere,
    normalizing twice gives what normalizing once gives. *)
Theorem stripNulls_idempotent_null_free (x : value) :
  is_container x = true ->
  null_free x = true ->
  stripNulls (stripNulls x) = stripNulls x.
Proof.
  intros _ _. apply stripValue_idempotent.
Qed.

(** ** Facts about the client *)

Section ClientMethods.

Import Http.

Variable c : AtlasHttpClient.

Lemma createEntity_invalid (entityId entityType alias subtype : string)
    (components : JsonRecord) (e : exn) (log : list FetchCall) :
  validateEntityComponents components = inl e ->
  createEntity c entityId entityType alias subtype (Some components) log
  = (inl e, log).
Proof.
  intros Hv. unfold createEntity, bind, lift. now rewrite Hv.
Qed.

Lemma updateEntity_invalid (entityId : string) (components : JsonRecord)
    (options : option UpdateEntityOptions) (e : exn) (log : list FetchCall) :
  validateEntityComponents components = inl e ->
  updateEntity c entityId (Some components) options log = (inl e, log).
Proof.
  intros Hv. unfold updateEntity, bind, lift.
  destruct (opt_field ue_subtype options); now rewrite Hv.
Qed.

Lemma createEntity_valid (entityId entityType alias subtype : string)
    (components : JsonRecord) (log : list FetchCall) :
  validateEntityComponents components = inr tt ->
  exists call,
    createEntity c entityId entityType alias subtype (Some components) log
    = (inr (Pending call), log ++ [call])
    /\ sends_components call components.
Proof.
  intros Hv. unfold createEntity, bind, lift, ret. rewrite Hv.
  eexists. split; [reflexivity|]. eexists. split; reflexivity.
Qed.

Lemma updateEntity_valid (entityId : string) (components : JsonRecord)
    (options : option UpdateEntityOptions) (log : list FetchCall) :
  validateEntityComponents components = inr tt ->
  exists call,
    updateEntity c entityId (Some components) options log
    = (inr (Pending call), log ++ [call])
    /\ sends_components call components.
Proof.
  intros Hv. unfold updateEntity, bind, lift, ret.
  destruct options as [[[subtype|]]|]; cbn [opt_field ue_subtype];
    rewrite Hv; eexists; (split; [reflexivity|]);
    eexists; split; reflexivity.
Qed.

Lemma createTask_sends (taskId : string) (components : JsonRecord)
    (options : option TaskOptions) (log : list FetchCall) :
  exists call,
    createTask c taskId (Some components) options log
    = (inr (Pending call), log ++ [call])
    /\ sends_components call components.
Proof.
  unfold createTask. eexists. split; [reflexivity|].
  destruct options as [[status [entity_id|] [extra|]]|];
    eexists; split; reflexivity.
Qed.

Lemma updateTask_sends (taskId : string) (components : JsonRecord)
    (options : option TaskOptions) (log : list FetchCall) :
  exists call,
    updateTask c taskId (Some components) options log
    = (inr (Pending call), log ++ [call])
    /\ sends_components call components.
Proof.
  unfold updateTask. eexists. split; [reflexivity|].
  destruct options as [[[status|] [entity_id|] [extra|]]|];
    eexists; split; reflexivity.
Qed.

End ClientMethods.

(** C4, as the code has it.  The entity methods [createEntity] and
    [updateEntity] run the validator first: when it rejects the mapping
    they throw its error and the transport is not called; when it accepts,
    the transport is called once with the normalized mapping under
    [components].  The task methods [createTask] and [updateTask] do not
    run the validator: whatever the keys of the mapping, the transport is
    called once with the normalized mapping under [components]. *)
Theorem entity_methods_validate_task_methods_do_not
    (c : Http.AtlasHttpClient) (components : Http.JsonRecord)
    (log : list Http.FetchCall) :
  (forall e, validateEntityComponents components = inl e ->
     (forall entityId entityType alias subtype,
        Http.createEntity c entityId entityType alias subtype
          (Some components) log = (inl e, log))
     /\ (forall entityId options,
          Http.updateEntity c entityId (Some components) options log
          = (inl e, log)))
  /\ (validateEntityComponents components = inr tt ->
      (forall entityId entityType alias subtype,
         exists call,
           Http.createEntity c entityId entityType alias subtype
             (Some components) log
           = (inr (Http.Pending call), log ++ [call])
           /\ sends_components call components)
      /\ (forall entityId options,
           exists call,
             Http.updateEntity c entityId (Some components) options log
             = (inr (Http.Pending call), log ++ [call])
             /\ sends_components call components))
  /\ (forall taskId options,
        (exists call,
           Http.createTask c taskId (Some components) options log
           = (inr (Http.Pending call), log ++ [call])
           /\ sends_components call components)
        /\ (exists call,
              Http.updateTask c taskId (Some components) options log
              = (inr (Http.Pending call), log ++ [call])
              /\ sends_components call components)).
Proof.
  split; [|split].
  - intros e Hv. split; intros.
    + now apply createEntity_invalid.
    + now apply updateEntity_invalid.
  - intros Hv. split; intros.
    + now apply createEntity_valid.
    + now apply updateEntity_valid.
  - intros taskId options. split.
    + apply createTask_sends.
    + apply updateTask_sends.
Qed.

(** C4 fails for the task methods.  The mapping [{payload: "start"}] of the
    package's own test is rejected by the validator, yet
    [createTask("task-1", {payload: "start"})] throws nothing and hands the
    request to the transport. *)
Lemma createTask_sends_unvalidated :
  validateEntityComponents Examples.payload_start
  = inl (Error (unknown_component_message "payload"))
  /\ Http.createTask Examples.client "task-1" (Some Examples.payload_start)
       None []
     = (inr (Http.Pending Examples.task_call), [Examples.task_call])
  /\ ~ aborts_on_invalid
         (fun components =>
            Http.createTask Examples.client "task-1" components None).
Proof.
  split; [reflexivity|]. split; [reflexivity|].
  intros Habort.
  specialize (Habort Examples.payload_start _ [] eq_refl). discriminate.
Qed.

(** ** Concrete instances *)

(** The scenarios of the specification and of the README. *)
Example custom_weather_scenario :
  let components :=
    [("custom_weather",
      VObj [("wind_speed", Examples.num 12); ("gusts", VNull)])] in
  validateEntityComponents components = inr tt
  /\ componentsToRecord (VObj components)
     = VObj [("custom_weather", VObj [("wind_speed", Examples.num 12)])].
Proof. split; reflexivity. Qed.

Example unknown_key_scenario :
  validateEntityComponents [("unknown_key", VObj [])]
  = inl (Error
      "Unknown component 'unknown_key' in entity components. Custom components must be prefixed with 'custom_'").
Proof. reflexivity. Qed.

Example known_and_custom_keys :
  validateEntityComponents [("telemetry", VObj []); ("custom_data", VObj [])]
  = inr tt.
Proof. reflexivity. Qed.

(** A [null] survives as an array element and not as a field. *)
Example fields_defined_examples :
  fields_defined (VObj [("a", VNull)]) = false
  /\ fields_defined (VArr [VNull; VObj [("a", VUndefined)]]) = false
  /\ fields_defined (VArr [VNull; VObj [("a", VArr [VNull])]]) = true.
Proof. repeat split. Qed.

(** An own [__proto__] property of the input is not an own property of
    the result. *)
Example own_proto_dropped :
  stripNulls (VObj [("__proto__", VObj [("a", Examples.num 1)]);
                    ("b", Examples.num 2)])
  = VObj [("b", Examples.num 2)].
Proof. reflexivity. Qed.

(** Three frames are not enough for the polygon example, four are. *)
Example polygon_frames :
  Run.run_stripNulls 3 Examples.polygon = Run.Exhausted
  /\ Run.run_stripNulls 4 Examples.polygon = Run.Returned Examples.polygon.
Proof. split; reflexivity. Qed.

(** The transport sees what the package's tests expect. *)
Example createEntity_custom_foo :
  Http.createEntity Examples.client "test-entity" "asset" "Test Entity"
    "drone" (Some [("custom_foo", VStr "bar")]) []
  = let call :=
      {| Http.fc_url := "http://atlas.local/entities";
         Http.fc_search := [];
         Http.fc_method := "POST";
         Http.fc_headers :=
           [ ("Content-Type", "application/json");
             ("Authorization", "Bearer test-token") ];
         Http.fc_body :=
           Some [ ("entity_id", VStr "test-entity");
                  ("entity_type", VStr "asset");
                  ("alias", VStr "Test Entity");
                  ("subtype", VStr "drone");
                  ("components", VObj [("custom_foo", VStr "bar")]) ] |} in
    (inr (Http.Pending call), [call]).
Proof. reflexivity. Qed.

Example updateEntity_requires_payload :
  Http.updateEntity Examples.client "test-entity" None None []
  = (inl (Error
       "AtlasHttpClient.updateEntity requires a components payload or subtype."),
     []).
Proof. reflexivity. Qed.

Example updateTask_payload_update :
  exists call,
    Http.updateTask Examples.client "task-1"
      (Some [("payload", VStr "update")]) None []
    = (inr (Http.Pending call), [call])
    /\ Http.fc_body call
       = Some [("components", VObj [("payload", VStr "update")])].
Proof. eexists. split; reflexivity. Qed.

Lemma rejected_by_test (key : string) :
  key_accepted key = false -> ~ accepted key.
Proof.
  intros E H. apply key_accepted_iff in H. congruence.
Qed.

(** C1 at [{unknown_key: "value"}]. *)
Lemma validateEntityComponents_valid_iff_witness :
  (exists key, In key (Object_keys Examples.unknown_key) /\ ~ accepted key)
  /\ exists key,
       In key (Object_keys Examples.unknown_key) /\ ~ accepted key /\
       validateEntityComponents Examples.unknown_key
       = inl (Error (unknown_component_message key)).
Proof.
  assert (H : exists key,
             In key (Object_keys Examples.unknown_key) /\ ~ accepted key).
  { exists "unknown_key". split; [now left|].
    apply rejected_by_test. reflexivity. }
  split; [exact H|].
  exact (proj2 (proj2 (proj2 validateEntityComponents_valid_iff)) _ H).
Defined.

(** C7 at [{telemetry: {}, bogus: {}, custom_x: 1, worse: null}]. *)
Lemma validateEntityComponents_first_offending_witness :
  let m := [ ("telemetry", VObj []); ("bogus", VObj []);
             ("custom_x", Examples.num 1); ("worse", VNull) ] in
  (exists key, In key (Object_keys m) /\ ~ accepted key)
  /\ validateEntityComponents m
     = inl (Error (unknown_component_message "bogus"))
  /\ exists pre key post,
       Object_keys m = pre ++ key :: post
       /\ Forall accepted pre
       /\ ~ accepted key
       /\ validateEntityComponents m
          = inl (Error (unknown_component_message key))
       /\ forall key',
            validateEntityComponents m
            = inl (Error (unknown_component_message key')) ->
            key' = key.
Proof.
  intros m.
  assert (H : exists key, In key (Object_keys m) /\ ~ accepted key).
  { exists "worse". split; [simpl; tauto|].
    apply rejected_by_test. reflexivity. }
  split; [exact H|]. split; [reflexivity|].
  exact (validateEntityComponents_first_offending m H).
Defined.

(** C8 at two mappings with the keys [telemetry] and [bogus] and different
    values. *)
Lemma validateEntityComponents_shallow_witness :
  let m1 := [ ("telemetry", VObj [("latitude", Examples.num 1)]);
              ("bogus", VNull) ] in
  let m2 := [ ("telemetry", VStr "x");
              ("bogus", VObj [("not_a_component", VNull)]) ] in
  Object_keys m1 = Object_keys m2
  /\ validateEntityComponents m1 = validateEntityComponents m2.
Proof.
  intros m1 m2.
  split; [reflexivity|].
  exact (validateEntityComponents_shallow m1 m2 eq_refl).
Defined.

(** C2 at the record [{a: 1, b: null, c: undefined}]. *)
Lemma stripValue_records_vs_sequences_witness :
  let entries := [ ("a", Examples.num 1); ("b", VNull); ("c", VUndefined) ] in
  NoDup (Object_keys entries)
  /\ exists nested,
       stripValue (VObj entries) = VObj nested
       /\ (forall key v, In (key, v) entries -> is_nullish v = true ->
             get_prop nested key = None)
       /\ (forall key v, In (key, v) entries -> is_nullish v = false ->
             key <> "__proto__" ->
             get_prop nested key = Some (stripValue v)).
Proof.
  intros entries.
  assert (Hnd : NoDup (Object_keys entries)).
  { repeat constructor; simpl; intuition discriminate. }
  split; [exact Hnd|].
  exact (proj1 stripValue_records_vs_sequences entries Hnd).
Defined.

(** C3 at [{latitude: undefined, altitude_m: null}]. *)
Lemma componentsToRecord_record_witness :
  let entries := [("latitude", VUndefined); ("altitude_m", VNull)] in
  Forall (fun kv => is_nullish (snd kv) = true) entries
  /\ componentsToRecord (VObj entries) = VObj [].
Proof.
  intros entries.
  assert (Hall : Forall (fun kv => is_nullish (snd kv) = true) entries).
  { repeat constructor. }
  split; [exact Hall|].
  exact (proj1 (proj2 (proj2 componentsToRecord_record)) entries Hall).
Defined.

(** C5 at [{polygon: [[1,2],[3,4]], name: "area"}]. *)
Lemma stripNulls_idempotent_null_free_witness :
  let x := VObj [ ("polygon",
                   VArr [ VArr [Examples.num 1; Examples.num 2];
                          VArr [Examples.num 3; Examples.num 4] ]);
                  ("name", VStr "area") ] in
  is_container x = true
  /\ null_free x = true
  /\ stripNulls (stripNulls x) = stripNulls x.
Proof.
  intros x. split; [reflexivity|]. split; [reflexivity|].
  exact (stripNulls_idempotent_null_free x eq_refl eq_refl).
Defined.

(** C6 at the polygon example, nested four deep. *)
Lemma stripNulls_total_witness :
  nesting Examples.polygon <= 4
  /\ Run.run_stripNulls 4 Examples.polygon
     = Run.Returned (stripNulls Examples.polygon).
Proof.
  assert (H : nesting Examples.polygon <= 4) by apply le_n.
  split; [exact H|].
  exact (stripNulls_total Examples.polygon 4 H).
Defined.

(** C4 at the mapping [{unknown_key: "value"}] of the package's test. *)
Lemma entity_methods_validate_task_methods_do_not_witness :
  validateEntityComponents Examples.unknown_key
  = inl (Error (unknown_component_message "unknown_key"))
  /\ Http.createEntity Examples.client "test-entity" "asset" "Test Entity"
       "drone" (Some Examples.unknown_key) []
     = (inl (Error (unknown_component_message "unknown_key")), []).
Proof.
  split; [reflexivity|].
  exact (proj1
           (proj1 (entity_methods_validate_task_methods_do_not
                     Examples.client Examples.unknown_key [])
              _ eq_refl)
           "test-entity" "asset" "Test Entity" "drone").
Defined.

(** * Further properties of the code *)

(** ** The stripper and the validator *)

Section StripperMore.

Lemma distinct_NoDup (keys : list string) :
  distinct keys = true -> NoDup keys.
Proof.
  induction keys as [|key rest IH]; simpl; intros H; [constructor|].
  apply andb_true_iff in H as [Hfresh Hrest]. constructor; [|auto].
  intros Hin. apply negb_true_iff in Hfresh.
  assert (existsb (String.eqb key) rest = true); [|congruence].
  apply existsb_exists. exists key. split; [assumption | apply String.eqb_refl].
Qed.

Lemma plain_not_nullish (v : value) : plain v = true -> is_nullish v = false.
Proof. destruct v; simpl; intros H; try discriminate; reflexivity. Qed.

Lemma stripValue_plain (v : value) : plain v = true -> stripValue v = v.
Proof.
  induction v as [| |b|n|s|items IH|entries IH] using value_ind;
    intros Hplain; try reflexivity; try discriminate.
  - cbn [plain] in Hplain. apply forallb_Forall in Hplain.
    cbn [stripValue]. f_equal. rewrite <- (map_id items) at 2.
    apply map_ext_Forall. rewrite Forall_forall in *.
    intros item Hin. unfold strip_item.
    rewrite (plain_not_nullish _ (Hplain _ Hin)). auto.
  - cbn [plain] in Hplain.
    apply andb_true_iff in Hplain as [Hkeys Hfields].
    apply andb_true_iff in Hkeys as [Hdistinct Hproto].
    apply forallb_Forall in Hfields. apply negb_true_iff in Hproto.
    apply stripValue_record_fixed; [now apply distinct_NoDup|].
    rewrite Forall_forall in *. intros [k w] Hin.
    specialize (IH _ Hin). specialize (Hfields _ Hin). cbn [snd] in *.
    unfold kept, strip_field. cbn [fst snd].
    rewrite (plain_not_nullish _ Hfields), (IH Hfields). split; [|reflexivity].
    destruct (String.eqb_spec k "__proto__") as [->|Hne]; [|reflexivity].
    exfalso.
    assert (existsb (String.eqb "__proto__") (Object_keys entries) = true);
      [|congruence].
    apply existsb_exists. exists "__proto__". split; [|reflexivity].
    unfold Object_keys. apply in_map_iff. now exists ("__proto__", w).
Qed.

(** The loop adds no key of its own. *)
Lemma stripValue_record_keys (entries : list (string * value)) :
  exists nested,
    stripValue (VObj entries) = VObj nested
    /\ incl (Object_keys nested) (Object_keys entries).
Proof.
  eexists. split; [reflexivity|].
  assert (H : Forall (fun kv => In (fst kv) (Object_keys entries))
                (fold_left (strip_entry stripValue) entries [])).
  { apply fold_strip_entry_Forall; [|constructor].
    apply Forall_forall. intros kv Hin _. unfold strip_field. cbn [fst].
    unfold Object_keys. now apply in_map. }
  intros key Hkey. unfold Object_keys in Hkey.
  apply in_map_iff in Hkey as [kv [<- Hin]].
  rewrite Forall_forall in H. now apply H.
Qed.

End StripperMore.

(** X1. One pass of the stripper reaches a fixed point for every value,
    whether or not it holds [null] or [undefined]: what a pass leaves in
    place (the [null] elements of sequences) the next pass leaves too. *)
Theorem stripNulls_idempotent (v : value) :
  stripNulls (stripNulls v) = stripNulls v
  /\ componentsToRecord (componentsToRecord v) = componentsToRecord v.
Proof.
  split; [apply stripValue_idempotent|].
  unfold componentsToRecord, stripNulls.
  destruct (is_undefined v) eqn:E; [reflexivity|].
  destruct (is_undefined (stripValue v)) eqn:E'.
  - destruct (stripValue v); try discriminate. reflexivity.
  - apply stripValue_idempotent.
Qed.

(** X2. A payload with nothing to strip comes back unchanged: when no
    [null] or [undefined] occurs anywhere and every record has distinct
    keys other than [__proto__], [stripNulls] and [componentsToRecord]
    return their argument. *)
Theorem stripNulls_plain_unchanged (v : value) :
  plain v = true ->
  stripNulls v = v /\ componentsToRecord v = v.
Proof.
  intros Hplain. split; [now apply stripValue_plain|].
  unfold componentsToRecord, stripNulls.
  destruct v; try discriminate; try reflexivity; now apply stripValue_plain.
Qed.

Lemma stripNulls_plain_unchanged_witness :
  let v := VObj [("geometry",
                  VObj [("polygon",
                         VArr [ VArr [Examples.num 40; Examples.num (-74)];
                                VArr [Examples.num 40.5; Examples.num (-74.5)];
                                VArr [Examples.num 41; Examples.num (-75)]
                              ])])] in
  plain v = true /\ stripNulls v = v /\ componentsToRecord v = v.
Proof.
  intros v. split; [reflexivity|].
  exact (stripNulls_plain_unchanged v eq_refl).
Defined.

(** X3. [componentsToRecord] keeps the kind of its argument: a scalar is
    returned as it is, a sequence as a sequence of the same length, a
    record as a record; the result is [undefined] exactly when the
    argument is [null] or [undefined], and it is never [null]. *)
Theorem componentsToRecord_kind (v : value) :
  is_undefined (componentsToRecord v) = is_nullish v
  /\ is_null (componentsToRecord v) = false
  /\ (is_nullish v = false -> kind_of (componentsToRecord v) = kind_of v)
  /\ (kind_of v = KScalar -> componentsToRecord v = v).
Proof.
  destruct v; cbn; repeat split; try reflexivity; try discriminate.
  intros _. now rewrite length_map.
Qed.

Lemma componentsToRecord_kind_witness :
  let v := VArr [VNull; VObj [("a", VNull)]; VStr "x"] in
  is_nullish v = false /\ kind_of (componentsToRecord v) = KSequence 3.
Proof.
  intros v. split; [reflexivity|].
  exact (proj1 (proj2 (proj2 (componentsToRecord_kind v))) eq_refl).
Defined.

(** X4. Whether a mapping is valid does not depend on the order of its
    keys: two mappings whose key lists are permutations of each other are
    both accepted or both rejected (the key the error names may differ). *)
Theorem validateEntityComponents_order_irrelevant
    (m1 m2 : list (string * value)) :
  Permutation (Object_keys m1) (Object_keys m2) ->
  (validateEntityComponents m1 = inr tt
   <-> validateEntityComponents m2 = inr tt).
Proof.
  intros Hperm. unfold validateEntityComponents.
  rewrite !validate_keys_ok. split; intros H.
  - now apply (Permutation_Forall Hperm).
  - now apply (Permutation_Forall (Permutation_sym Hperm)).
Qed.

Lemma validateEntityComponents_order_irrelevant_witness :
  let m1 := [("zzz", VNull); ("telemetry", VObj []); ("aaa", VNull)] in
  let m2 := [("aaa", VNull); ("zzz", VNull); ("telemetry", VObj [])] in
  Permutation (Object_keys m1) (Object_keys m2)
  /\ (validateEntityComponents m1 = inr tt
      <-> validateEntityComponents m2 = inr tt)
  /\ validateEntityComponents m1
     = inl (Error (unknown_component_message "zzz"))
  /\ validateEntityComponents m2
     = inl (Error (unknown_component_message "aaa")).
Proof.
  intros m1 m2.
  assert (H : Permutation (Object_keys m1) (Object_keys m2)).
  { cbn. apply Permutation_sym.
    apply (Permutation_cons_app ["zzz"; "telemetry"] []).
    apply Permutation_refl. }
  split; [exact H|]. split; [|split; reflexivity].
  exact (validateEntityComponents_order_irrelevant m1 m2 H).
Defined.

Lemma componentsToRecord_record_valid (m : list (string * value)) :
  exists nested,
    componentsToRecord (VObj m) = VObj nested
    /\ incl (Object_keys nested) (Object_keys m)
    /\ NoDup (Object_keys nested)
    /\ (validateEntityComponents m = inr tt ->
        validateEntityComponents nested = inr tt).
Proof.
  destruct (stripValue_record_keys m) as [nested [E Hincl]].
  exists nested. split; [exact E|]. split; [exact Hincl|]. split.
  - cbn [stripValue] in E. inversion E.
    apply fold_strip_entry_NoDup. constructor.
  - unfold validateEntityComponents. rewrite !validate_keys_ok.
    rewrite !Forall_forall. intros H key Hin. apply H. now apply Hincl.
Qed.

(** X5. Stripping adds no key: every top-level key of
    [componentsToRecord(m)] is a key of [m] and occurs once, so a mapping
    that passed validation still passes it after normalization. *)
Theorem componentsToRecord_keeps_validity (m : list (string * value)) :
  exists nested,
    componentsToRecord (VObj m) = VObj nested
    /\ incl (Object_keys nested) (Object_keys m)
    /\ NoDup (Object_keys nested)
    /\ (validateEntityComponents m = inr tt ->
        validateEntityComponents nested = inr tt).
Proof.
  apply componentsToRecord_record_valid.
Qed.

Lemma componentsToRecord_keeps_validity_witness :
  let m := [ ("telemetry", VObj [("latitude", VNull)]); ("health", VNull);
             ("custom_x", VArr [VNull]) ] in
  validateEntityComponents m = inr tt
  /\ exists nested,
       componentsToRecord (VObj m) = VObj nested
       /\ incl (Object_keys nested) (Object_keys m)
       /\ NoDup (Object_keys nested)
       /\ (validateEntityComponents m = inr tt ->
           validateEntityComponents nested = inr tt).
Proof.
  intros m. split; [reflexivity|].
  exact (componentsToRecord_keeps_validity m).
Defined.

(** ** The request-building methods *)

Section Invocations.

Import Http Methods Calls.

Variable c : AtlasHttpClient.



Lemma set_if_defined_top_defined (payload : JsonRecord) (key : string)
    (x : option value) :
  top_defined payload ->
  (forall v, x = Some v -> is_nullish v = false) ->
  top_defined (set_if_defined payload key x).
Proof.
  intros Hp Hx. destruct x as [v|]; [|assumption]. cbn. unfold set_prop.
  destruct (String.eqb key "__proto__"); [assumption|].
  apply assign_own_Forall; [assumption|]. cbn. now apply Hx.
Qed.

Lemma invoke_method_and_body (i : Invocation) (log log' : list FetchCall)
    (call : FetchCall) :
  invoke c i log = (inr (Promise (Pending call)), log') ->
  (fc_method call = "GET" -> fc_body call = None)
  /\ (fc_method call = "POST" \/ fc_method call = "PATCH" ->
      exists body, fc_body call = Some body)
  /\ top_defined (fc_search call).
Proof.
  intros H.
  destruct i; cbn [invoke] in H;
    unfold promised, bind, ret, lift, throw, getRoot, getHealth,
      getReadiness, listEntities, getEntity, getEntityByAlias,
      createEntity, updateEntity, deleteEntity, updateEntityTelemetry,
      checkinEntity, listTasks, getTask, createTask, updateTask,
      deleteTask, getTasksByEntity, acknowledgeTask, startTask,
      acknowledgeTask, completeTask, transitionTaskStatus, failTask,
      listObjects, getObject, createObjectMetadata, updateObject,
      deleteObject, getObjectsByEntity, getObjectsByTask,
      addObjectReference, removeObjectReference, findOrphanedObjects,
      getObjectReferences, validateObjectReferences,
      cleanupObjectReferences, getChangedSince, getFullDataset,
      bind, ret, lift, throw, request, fetchImpl in H;
    repeat match type of H with
           | context [match ?x with Some _ => _ | None => _ end] =>
               destruct x
           | context [match ?x with inl _ => _ | inr _ => _ end] =>
               destruct x
           | context [match ?x with tt => _ end] => destruct x
           | context [let (_, _) := ?x in _] => destruct x
           end;
    try discriminate; injection H; intros; subst; clear H;
    cbn [fc_method fc_body fc_search];
    (split; [intros E; first [reflexivity | discriminate E]|]);
    (split; [intros [E|E]; first [eexists; reflexivity | discriminate E]|]);
    unfold top_defined, or_undefined, default, opt_field;
    repeat match goal with
           | |- context [match ?x with Some _ => _ | None => _ end] =>
               destruct x
           end;
    cbn; repeat constructor.
Qed.

Lemma invoke_body_defined (i : Invocation) (log log' : list FetchCall)
    (call : FetchCall) (body : JsonRecord) :
  may_send_undefined i = false ->
  invoke c i log = (inr (Promise (Pending call)), log') ->
  fc_body call = Some body ->
  top_defined body.
Proof.
  intros Hmay H Hbody.
  destruct i; try discriminate Hmay; cbn [invoke] in H;
    unfold promised, bind, ret, lift, throw, getRoot, getHealth,
      getReadiness, listEntities, getEntity, getEntityByAlias,
      createEntity, updateEntity, deleteEntity, updateEntityTelemetry,
      listTasks, getTask, createTask, updateTask,
      deleteTask, getTasksByEntity, acknowledgeTask, startTask,
      acknowledgeTask, completeTask, transitionTaskStatus, failTask,
      listObjects, getObject, updateObject,
      deleteObject, getObjectsByEntity, getObjectsByTask,
      addObjectReference, removeObjectReference, findOrphanedObjects,
      getObjectReferences, validateObjectReferences,
      cleanupObjectReferences, getChangedSince, getFullDataset,
      bind, ret, lift, throw, request, fetchImpl in H;
    repeat match type of H with
           | context [match ?x with Some _ => _ | None => _ end] =>
               destruct x
           | context [match ?x with inl _ => _ | inr _ => _ end] =>
               destruct x
           | context [match ?x with tt => _ end] => destruct x
           end;
    try discriminate; injection H; intros; subst; clear H;
    cbn [fc_body] in Hbody; try discriminate Hbody;
    injection Hbody; intros; subst; clear Hbody;
    unfold reference_payload;
    repeat (apply set_if_defined_top_defined;
            [| intros v Ev; unfold option_map, opt_field in Ev;
               repeat match type of Ev with
                      | context [match ?x with Some _ => _ | None => _ end] =>
                          destruct x
                      end;
               try discriminate Ev; injection Ev as <-; reflexivity ]);
    cbn; repeat constructor.
Qed.

End Invocations.


(** X7. Whatever the method and its arguments, a [GET] request carries no
    body, a [POST] or [PATCH] request always carries one (the empty record
    when there is nothing to say), and no query parameter is bound to
    [null] or [undefined]: options left out never reach the URL. *)
Theorem every_call_method_body_query (c : Http.AtlasHttpClient)
    (i : Calls.Invocation) (log log' : list Http.FetchCall)
    (call : Http.FetchCall) :
  Calls.invoke c i log = (inr (Methods.Promise (Http.Pending call)), log') ->
  (Http.fc_method call = "GET" -> Http.fc_body call = None)
  /\ (Http.fc_method call = "POST" \/ Http.fc_method call = "PATCH" ->
      exists body, Http.fc_body call = Some body)
  /\ top_defined (Http.fc_search call).
Proof.
  apply invoke_method_and_body.
Qed.

Lemma every_call_method_body_query_witness :
  let i := Calls.ListTasks None None None in
  let call :=
    {| Http.fc_url := "http://atlas.local/tasks";
       Http.fc_search :=
         [("limit", Examples.num 25); ("offset", Examples.num 0)];
       Http.fc_method := "GET";
       Http.fc_headers :=
         [ ("Content-Type", "application/json");
           ("Authorization", "Bearer test-token") ];
       Http.fc_body := None |} in
  Calls.invoke Examples.client i []
  = (inr (Methods.Promise (Http.Pending call)), [call])
  /\ (Http.fc_method call = "GET" -> Http.fc_body call = None)
  /\ (Http.fc_method call = "POST" \/ Http.fc_method call = "PATCH" ->
      exists body, Http.fc_body call = Some body)
  /\ top_defined (Http.fc_search call).
Proof.
  intros i call. split; [reflexivity|].
  exact (every_call_method_body_query Examples.client i [] [call] call
           eq_refl).
Defined.

(** X8. Apart from [createObjectMetadata], which writes every option into
    its object literal, and [checkinEntity], which spreads the telemetry
    object it is given, no method binds a top-level field of the request
    body to [null] or [undefined]: an option left out leaves no key. *)
Theorem every_body_field_defined (c : Http.AtlasHttpClient)
    (i : Calls.Invocation) (log log' : list Http.FetchCall)
    (call : Http.FetchCall) (body : Http.JsonRecord) :
  may_send_undefined i = false ->
  Calls.invoke c i log = (inr (Methods.Promise (Http.Pending call)), log') ->
  Http.fc_body call = Some body ->
  top_defined body.
Proof.
  apply invoke_body_defined.
Qed.

Lemma every_body_field_defined_witness :
  let options :=
    {| Methods.latitude := Some 1%float; Methods.longitude := None;
       Methods.altitude_m := None; Methods.speed_m_s := Some 2%float;
       Methods.heading_deg := None |} in
  let i := Calls.UpdateEntityTelemetry "test-entity" options in
  let body := [("latitude", Examples.num 1); ("speed_m_s", Examples.num 2)] in
  exists call,
    Calls.invoke Examples.client i []
    = (inr (Methods.Promise (Http.Pending call)), [call])
    /\ Http.fc_body call = Some body
    /\ top_defined body.
Proof.
  intros options i body. eexists. split; [reflexivity|].
  split; [reflexivity|].
  exact (every_body_field_defined Examples.client i [] _ _ body
           eq_refl eq_refl eq_refl).
Defined.

Section FailingBeforeRequest.

Import Http Methods Calls.

Variable c : AtlasHttpClient.
Variable log : list FetchCall.

Lemma createEntity_throws_iff (entityId entityType alias subtype : string)
    (components : option JsonRecord) :
  (exists e,
      createEntity c entityId entityType alias subtype components log
      = (inl e, log))
  <-> exists m e,
        components = Some m /\ validateEntityComponents m = inl e.
Proof.
  split.
  - intros [e H]. destruct components as [m|]; [|discriminate H].
    exists m. destruct (validateEntityComponents m) as [e'|[]] eqn:Hv.
    + now exists e'.
    + destruct (createEntity_valid c entityId entityType alias subtype m log Hv)
        as [call [E _]].
      rewrite E in H. discriminate H.
  - intros (m & e & -> & Hv). exists e. now apply createEntity_invalid.
Qed.

Lemma updateEntity_throws_iff (entityId : string)
    (components : option JsonRecord) (options : option UpdateEntityOptions) :
  (exists e, updateEntity c entityId components options log = (inl e, log))
  <-> (components = None /\ opt_field ue_subtype options = None)
      \/ exists m e,
           components = Some m /\ validateEntityComponents m = inl e.
Proof.
  split.
  - intros [e H]. destruct components as [m|].
    + right. exists m.
      destruct (validateEntityComponents m) as [e'|[]] eqn:Hv.
      * now exists e'.
      * destruct (updateEntity_valid c entityId m options log Hv)
          as [call [E _]].
        rewrite E in H. discriminate H.
    + left. split; [reflexivity|].
      destruct (opt_field ue_subtype options) eqn:Es; [|reflexivity].
      unfold updateEntity in H. rewrite Es in H. discriminate H.
  - intros [[-> Es]|(m & e & -> & Hv)].
    + eexists. unfold updateEntity. rewrite Es. reflexivity.
    + exists e. now apply updateEntity_invalid.
Qed.

Lemma updateTask_throws_iff (taskId : string)
    (components : option JsonRecord) (options : option TaskOptions) :
  (exists e, updateTask c taskId components options log = (inl e, log))
  <-> components = None /\ options = None.
Proof.
  split.
  - intros [e H].
    destruct components, options; try discriminate H. now split.
  - intros [-> ->]. eexists. reflexivity.
Qed.

Lemma updateObject_rejects_iff (objectId : string)
    (usageHints : option (list string))
    (referencedBy : option (list ObjectReference)) :
  ((exists e,
       updateObject c objectId usageHints referencedBy log
       = (inr (RejectedPromise e), log))
   <-> usageHints = None /\ referencedBy = None)
  /\ forall e log',
       updateObject c objectId usageHints referencedBy log <> (inl e, log').
Proof.
  split; [split|].
  - intros [e H].
    destruct usageHints, referencedBy; try discriminate H. now split.
  - intros [-> ->]. eexists. reflexivity.
  - intros e log' H. destruct usageHints, referencedBy; discriminate H.
Qed.

End FailingBeforeRequest.

(** X9. When the checking methods fail before sending.  [createEntity]
    throws exactly when it is given components the validator rejects;
    [updateEntity] also when it is given neither components nor a subtype;
    [updateTask] throws exactly when both components and options are
    left out, so an empty options object is enough for it to send an
    empty body, whereas [updateEntity] throws on one. *)
Theorem checking_methods_throw_iff (c : Http.AtlasHttpClient)
    (log : list Http.FetchCall) :
  (forall entityId entityType alias subtype components,
      (exists e,
          Http.createEntity c entityId entityType alias subtype components log
          = (inl e, log))
      <-> exists m e,
            components = Some m /\ validateEntityComponents m = inl e)
  /\ (forall entityId components options,
        (exists e,
            Http.updateEntity c entityId components options log
            = (inl e, log))
        <-> (components = None
             /\ Http.opt_field Http.ue_subtype options = None)
            \/ exists m e,
                 components = Some m /\ validateEntityComponents m = inl e)
  /\ (forall taskId components options,
        (exists e,
            Http.updateTask c taskId components options log = (inl e, log))
        <-> components = None /\ options = None)
  /\ (forall taskId,
        exists call,
          Http.updateTask c taskId None
            (Some (Http.mkTaskOptions None None None)) log
          = (inr (Http.Pending call), log ++ [call])
          /\ Http.fc_body call = Some [])
  /\ (forall entityId,
        exists e,
          Http.updateEntity c entityId None
            (Some (Http.mkUpdateEntityOptions None)) log
          = (inl e, log)).
Proof.
  split; [|split; [|split; [|split]]].
  - intros. apply createEntity_throws_iff.
  - intros. apply updateEntity_throws_iff.
  - intros. apply updateTask_throws_iff.
  - intros taskId. eexists. split; reflexivity.
  - intros entityId. eexists. reflexivity.
Qed.

(** X10. [updateObject] never throws: with neither usage hints nor
    references it returns a rejected promise and calls nothing, and in
    every other case it sends the request. *)
Theorem updateObject_rejects_instead_of_throwing (c : Http.AtlasHttpClient)
    (objectId : string) (usageHints : option (list string))
    (referencedBy : option (list Methods.ObjectReference))
    (log : list Http.FetchCall) :
  ((exists e,
       Methods.updateObject c objectId usageHints referencedBy log
       = (inr (Methods.RejectedPromise e), log))
   <-> usageHints = None /\ referencedBy = None)
  /\ (forall e log',
        Methods.updateObject c objectId usageHints referencedBy log
        <> (inl e, log'))
  /\ (usageHints <> None \/ referencedBy <> None ->
      exists call,
        Methods.updateObject c objectId usageHints referencedBy log
        = (inr (Methods.Promise (Http.Pending call)), log ++ [call])
        /\ Http.fc_method call = "PATCH").
Proof.
  destruct (updateObject_rejects_iff c log objectId usageHints referencedBy)
    as [Hiff Hnever].
  split; [exact Hiff|]. split; [exact Hnever|].
  intros Hsome.
  destruct usageHints, referencedBy;
    try (eexists; split; reflexivity).
  destruct Hsome as [H|H]; now contradiction H.
Qed.

Section Payloads.

Import Http Methods.

Variable c : AtlasHttpClient.

Lemma status_or_pending_nonempty (options : option TaskOptions) :
  status_or_pending options <> ""
  /\ (forall given,
        opt_field to_status options = Some given -> given <> "" ->
        status_or_pending options = given)
  /\ (opt_field to_status options = None
      \/ opt_field to_status options = Some "" ->
      status_or_pending options = "pending").
Proof.
  unfold status_or_pending.
  destruct (opt_field to_status options) as [s|]; cbn.
  - destruct (String.eqb_spec s "") as [->|Hne].
    + split; [discriminate|]. split; [intros given E; inversion E; congruence|].
      reflexivity.
    + split; [assumption|]. split; [intros given E _; now inversion E|].
      intros [E|E]; [discriminate|]. inversion E. congruence.
  - split; [discriminate|]. split; [discriminate|]. reflexivity.
Qed.

Lemma createTask_body (taskId : string) (components : option JsonRecord)
    (options : option TaskOptions) (log : list FetchCall) :
  exists call body,
    createTask c taskId components options log
    = (inr (Pending call), log ++ [call])
    /\ fc_body call = Some body
    /\ get_prop body "task_id" = Some (VStr taskId)
    /\ get_prop body "status" = Some (VStr (status_or_pending options))
    /\ get_prop body "entity_id"
       = option_map VStr (opt_field to_entity_id options)
    /\ get_prop body "components"
       = option_map (fun m => componentsToRecord (VObj m)) components
    /\ get_prop body "extra" = option_map VObj (opt_field to_extra options).
Proof.
  unfold createTask. do 2 eexists. split; [reflexivity|].
  split; [reflexivity|].
  destruct options as [[status [entity|] [extra|]]|], components as [m|];
    repeat split.
Qed.

Lemma updateTask_body (taskId : string) (components : option JsonRecord)
    (options : TaskOptions) (log : list FetchCall) :
  exists call body,
    updateTask c taskId components (Some options) log
    = (inr (Pending call), log ++ [call])
    /\ fc_body call = Some body
    /\ get_prop body "status" = option_map VStr (to_status options)
    /\ get_prop body "entity_id" = option_map VStr (to_entity_id options)
    /\ get_prop body "components"
       = option_map (fun m => componentsToRecord (VObj m)) components
    /\ get_prop body "extra" = option_map VObj (to_extra options).
Proof.
  unfold updateTask.
  destruct options as [[status|] [entity|] [extra|]], components as [m|];
    do 2 eexists; repeat split.
Qed.

Lemma entity_components_sent (m : JsonRecord) (call : FetchCall)
    (body : JsonRecord) :
  validateEntityComponents m = inr tt ->
  fc_body call = Some body ->
  get_prop body "components" = Some (componentsToRecord (VObj m)) ->
  exists nested,
    get_prop body "components" = Some (VObj nested)
    /\ validateEntityComponents nested = inr tt
    /\ NoDup (Object_keys nested)
    /\ fields_defined (VObj nested) = true.
Proof.
  intros Hv Hbody Hget.
  destruct (componentsToRecord_record_valid m)
    as (nested & E & _ & Hnd & Hvalid).
  exists nested. rewrite Hget, E. split; [reflexivity|].
  split; [auto|]. split; [assumption|].
  rewrite <- E. unfold componentsToRecord, stripNulls. cbn [is_undefined].
  apply stripValue_fields_defined.
Qed.

End Payloads.

(** X11. [createTask] never sends an empty status: the body's [status] is
    the given one when that is a non-empty string and ["pending"]
    otherwise, the empty string included. *)
Theorem createTask_status_never_empty (c : Http.AtlasHttpClient)
    (taskId : string) (components : option Http.JsonRecord)
    (options : option Http.TaskOptions) (log : list Http.FetchCall) :
  exists call body status,
    Http.createTask c taskId components options log
    = (inr (Http.Pending call), log ++ [call])
    /\ Http.fc_body call = Some body
    /\ get_prop body "status" = Some (VStr status)
    /\ status <> ""
    /\ (forall given,
          Http.opt_field Http.to_status options = Some given ->
          given <> "" -> status = given)
    /\ (Http.opt_field Http.to_status options = None
        \/ Http.opt_field Http.to_status options = Some "" ->
        status = "pending").
Proof.
  destruct (createTask_body c taskId components options log)
    as (call & body & E & Hbody & _ & Hstatus & _).
  exists call, body, (Http.status_or_pending options).
  repeat (split; [assumption|]). apply status_or_pending_nonempty.
Qed.

(** X12. Of the task payload only [components] is normalized: [createTask]
    and [updateTask] bind [extra] to the record they are given, [null]
    fields and all, while [components] is bound to the stripped
    mapping. *)
Theorem task_methods_send_extra_verbatim (c : Http.AtlasHttpClient)
    (taskId : string) (components : option Http.JsonRecord)
    (options : Http.TaskOptions) (log : list Http.FetchCall) :
  (exists call body,
      Http.createTask c taskId components (Some options) log
      = (inr (Http.Pending call), log ++ [call])
      /\ Http.fc_body call = Some body
      /\ get_prop body "extra" = option_map VObj (Http.to_extra options)
      /\ get_prop body "components"
         = option_map (fun m => componentsToRecord (VObj m)) components)
  /\ (exists call body,
        Http.updateTask c taskId components (Some options) log
        = (inr (Http.Pending call), log ++ [call])
        /\ Http.fc_body call = Some body
        /\ get_prop body "extra" = option_map VObj (Http.to_extra options)
        /\ get_prop body "components"
           = option_map (fun m => componentsToRecord (VObj m)) components).
Proof.
  split.
  - destruct (createTask_body c taskId components (Some options) log)
      as (call & body & E & Hbody & _ & _ & _ & Hcomp & Hextra).
    exists call, body. repeat split; assumption.
  - destruct (updateTask_body c taskId components options log)
      as (call & body & E & Hbody & _ & _ & Hcomp & Hextra).
    exists call, body. repeat split; assumption.
Qed.

(** X13. What the entity methods send under [components] is clean: when
    [createEntity] or [updateEntity] hands a request to the transport, the
    body's [components] is a record whose keys are distinct and all pass
    the validator and in which no record at any depth has a [null] or
    [undefined] field. *)
Theorem entity_methods_send_clean_components (c : Http.AtlasHttpClient)
    (m : Http.JsonRecord) (log log' : list Http.FetchCall)
    (call : Http.FetchCall) :
  (forall entityId entityType alias subtype,
      Http.createEntity c entityId entityType alias subtype (Some m) log
      = (inr (Http.Pending call), log') ->
      exists body nested,
        Http.fc_body call = Some body
        /\ get_prop body "components" = Some (VObj nested)
        /\ validateEntityComponents nested = inr tt
        /\ NoDup (Object_keys nested)
        /\ fields_defined (VObj nested) = true)
  /\ (forall entityId options,
        Http.updateEntity c entityId (Some m) options log
        = (inr (Http.Pending call), log') ->
        exists body nested,
          Http.fc_body call = Some body
          /\ get_prop body "components" = Some (VObj nested)
          /\ validateEntityComponents nested = inr tt
          /\ NoDup (Object_keys nested)
          /\ fields_defined (VObj nested) = true).
Proof.
  split.
  - intros entityId entityType alias subtype H.
    destruct (validateEntityComponents m) as [e|[]] eqn:Hv.
    + rewrite (createEntity_invalid c _ _ _ _ _ e log Hv) in H. discriminate H.
    + destruct (createEntity_valid c entityId entityType alias subtype m log Hv)
        as (call' & E & body & Hbody & Hget).
      rewrite E in H. inversion H; subst.
      destruct (entity_components_sent m call body Hv Hbody Hget)
        as (nested & ?). now exists body, nested.
  - intros entityId options H.
    destruct (validateEntityComponents m) as [e|[]] eqn:Hv.
    + rewrite (updateEntity_invalid c _ _ _ e log Hv) in H. discriminate H.
    + destruct (updateEntity_valid c entityId m options log Hv)
        as (call' & E & body & Hbody & Hget).
      rewrite E in H. inversion H; subst.
      destruct (entity_components_sent m call body Hv Hbody Hget)
        as (nested & ?). now exists body, nested.
Qed.

(** ** The constructor and the headers *)

Section ConstructorFacts.

Import Construct.

Lemma strip_trailing_slash_app (s : string) :
  strip_trailing_slash (s ++ "/") = s.
Proof.
  induction s as [|ch s IH]; [reflexivity|].
  cbn [append strip_trailing_slash]. rewrite IH.
  destruct s; reflexivity.
Qed.

Lemma strip_trailing_slash_cases (s : string) :
  (strip_trailing_slash s = s /\ forall u, s <> (u ++ "/")%string)
  \/ s = (strip_trailing_slash s ++ "/")%string.
Proof.
  induction s as [|ch s IH].
  - left. split; [reflexivity|]. intros [|? ?]; discriminate.
  - destruct s as [|ch' s'].
    + cbn. destruct (Ascii.eqb_spec ch "/"%char) as [->|Hne].
      * right. reflexivity.
      * left. split; [reflexivity|].
        intros [|? [|? ?]] H; inversion H; congruence.
    + change (strip_trailing_slash (String ch (String ch' s')))
        with (String ch (strip_trailing_slash (String ch' s'))).
      destruct IH as [[E Hno]|E].
      * left. split.
        -- now rewrite E.
        -- intros [|x u] H; [discriminate H|]. inversion H; subst.
           now apply (Hno u).
      * right. cbn [append]. now rewrite <- E.
Qed.

End ConstructorFacts.

(** X14. The constructor removes one trailing slash from the base URL and
    nothing else: a base URL given as [u/] yields the client of [u], a
    base URL that does not end in a slash is kept as it is, and the token
    is taken over.  It throws exactly when neither [options.fetchImpl]
    nor a global [fetch] is there, and prefers [options.fetchImpl]. *)
Theorem new_AtlasHttpClient_normalizes (Fetch : Type)
    (globalFetch : option Fetch) (options : Construct.ClientOptions Fetch) :
  (Construct.new_AtlasHttpClient Fetch globalFetch options
   = inl (Error "fetch is not available; provide fetchImpl")
   <-> Construct.opt_fetchImpl Fetch options = None /\ globalFetch = None)
  /\ forall client fetch,
       Construct.new_AtlasHttpClient Fetch globalFetch options
       = inr (client, fetch) ->
       Http.token client = Construct.opt_token Fetch options
       /\ (Construct.opt_fetchImpl Fetch options = Some fetch
           \/ (Construct.opt_fetchImpl Fetch options = None
               /\ globalFetch = Some fetch))
       /\ (forall u,
             Construct.opt_baseUrl Fetch options = (u ++ "/")%string ->
             Http.baseUrl client = u)
       /\ ((forall u, Construct.opt_baseUrl Fetch options <> (u ++ "/")%string)
           -> Http.baseUrl client = Construct.opt_baseUrl Fetch options).
Proof.
  unfold Construct.new_AtlasHttpClient.
  destruct options as [url tok [f|]]; cbn.
  - split; [split; [discriminate | intros [H _]; discriminate H]|].
    intros client fetch H. inversion H; subst. cbn.
    split; [reflexivity|]. split; [now left|]. split.
    + intros u ->. apply strip_trailing_slash_app.
    + intros Hno. destruct (strip_trailing_slash_cases url) as [[E _]|E];
        [assumption|]. now contradiction (Hno _ E).
  - destruct globalFetch as [g|].
    + split; [split; [discriminate | intros [_ H]; discriminate H]|].
      intros client fetch H. inversion H; subst. cbn.
      split; [reflexivity|]. split; [now right|]. split.
      * intros u ->. apply strip_trailing_slash_app.
      * intros Hno. destruct (strip_trailing_slash_cases url) as [[E _]|E];
          [assumption|]. now contradiction (Hno _ E).
    + split; [split; auto|]. intros client fetch H. discriminate H.
Qed.

Lemma new_AtlasHttpClient_normalizes_witness :
  let options :=
    Construct.mkClientOptions nat "http://atlas.local/" (Some "tok") None in
  Construct.new_AtlasHttpClient nat (Some 7) options
  = inr ({| Http.baseUrl := "http://atlas.local"; Http.token := Some "tok" |},
         7)
  /\ Http.baseUrl
       {| Http.baseUrl := "http://atlas.local"; Http.token := Some "tok" |}
     = "http://atlas.local".
Proof.
  intros options. split; [reflexivity|].
  exact (proj1 (proj2 (proj2
           (proj2 (new_AtlasHttpClient_normalizes nat (Some 7) options)
              _ 7 eq_refl)))
           "http://atlas.local" eq_refl).
Defined.

(** X15. The JSON headers are the multipart headers with [Content-Type]
    put first; the multipart headers never name a content type; and both
    carry [Authorization: Bearer <token>] exactly when the client has a
    token that is not the empty string. *)
Theorem headers_and_multipartHeaders (c : Http.AtlasHttpClient) :
  Http.headers c
  = ("Content-Type", "application/json") :: Async.multipartHeaders c
  /\ ~ In "Content-Type" (map fst (Async.multipartHeaders c))
  /\ (forall v,
        In ("Authorization", v) (Async.multipartHeaders c)
        <-> exists t,
              Http.token c = Some t /\ t <> ""
              /\ v = ("Bearer " ++ t)%string)
  /\ List.length (Async.multipartHeaders c) <= 1.
Proof.
  unfold Http.headers, Async.multipartHeaders.
  destruct (Http.token c) as [t|]; [destruct (String.eqb_spec t "") as [->|Hne]|];
    cbn.
  - split; [reflexivity|]. split; [tauto|]. split; [|lia].
    intros v. split; [tauto|]. intros (t & E & Hne & _). inversion E.
    congruence.
  - split; [reflexivity|]. split; [intros [H|[]]; discriminate H|].
    split; [|lia]. intros v. split.
    + intros [H|[]]. inversion H. now exists t.
    + intros (t' & E & _ & ->). inversion E. now left.
  - split; [reflexivity|]. split; [tauto|]. split; [|lia].
    intros v. split; [tauto|]. intros (t & E & _). discriminate E.
Qed.

(** ** Requests with their responses *)

Section Settlement.

Import Async.



Lemma settle_cases (r : Response) (transport : Transport) (log : list Call) :
  settle r transport log
  = (if negb (ok r) then inl (Error (http_error_message (status r) (text r)))
     else if Nat.eqb (status r) 204 then inr VUndefined
     else json r,
     log).
Proof.
  unfold settle. destruct (ok r); cbn; [|reflexivity].
  destruct (Nat.eqb (status r) 204); reflexivity.
Qed.

Lemma request_cases (c : Http.AtlasHttpClient) (method path : string)
    (body params : option Http.JsonRecord) (transport : Transport)
    (log : list Call) :
  let call := JsonCall (request_call c method path body params) in
  request c method path body params transport log
  = (match transport log call with
     | inl e => inl e
     | inr r =>
         if negb (ok r)
         then inl (Error (http_error_message (status r) (text r)))
         else if Nat.eqb (status r) 204 then inr VUndefined
         else json r
     end,
     log ++ [call]).
Proof.
  intros call. unfold request, bind, fetchImpl. fold call.
  destruct (transport log call) as [e|r]; [reflexivity|].
  apply settle_cases.
Qed.

Lemma multipartRequest_cases (c : Http.AtlasHttpClient) (path : string)
    (formData : FormData) (transport : Transport) (log : list Call) :
  let call :=
    MultipartCall (Http.baseUrl c ++ path)%string (multipartHeaders c)
      formData in
  multipartRequest c path formData transport log
  = (match transport log call with
     | inl e => inl e
     | inr r =>
         if negb (ok r)
         then inl (Error (http_error_message (status r) (text r)))
         else if Nat.eqb (status r) 204 then inr VUndefined
         else json r
     end,
     log ++ [call]).
Proof.
  intros call. unfold multipartRequest, bind, fetchImpl. fold call.
  destruct (transport log call) as [e|r]; [reflexivity|].
  apply settle_cases.
Qed.

End Settlement.


Section CreateObject.

Import Async.

Variable String_of : value -> exn + string.
Variable c : Http.AtlasHttpClient.
Variable transport : Transport.

Lemma answered_settles (call : Call) (log : list Call) :
  answers_ok transport call ->
  exists r v,
    transport log call = inr r
    /\ (if negb (ok r)
        then inl (Error (http_error_message (status r) (text r)))
        else if Nat.eqb (status r) 204 then inr VUndefined
        else json r) = inr v.
Proof.
  intros Hok. destruct (Hok log) as (r & E & Hr & Hbody).
  exists r. rewrite Hr. cbn.
  destruct (Nat.eqb_spec (status r) 204) as [_|Hne].
  - now exists VUndefined.
  - destruct Hbody as [H|[v Hv]]; [contradiction|]. now exists v.
Qed.

Lemma addObjectReference_answered (storedObjectId : string)
    (reference : Methods.ObjectReference) (log : list Call) :
  embeds_strings String_of ->
  answers_ok transport (reference_call c storedObjectId reference) ->
  exists v,
    addObjectReference String_of c (VStr storedObjectId)
      (Methods.entity_id reference) (Methods.task_id reference) transport log
    = (inr v, log ++ [reference_call c storedObjectId reference]).
Proof.
  intros Hstr Hok. unfold addObjectReference, bind, lift. rewrite Hstr.
  rewrite request_cases. fold (reference_call c storedObjectId reference).
  destruct (answered_settles _ log Hok) as (r & v & -> & ->). now exists v.
Qed.

Lemma addObjectReference_refused (storedObjectId : string)
    (reference : Methods.ObjectReference) (log : list Call) (r : Response) :
  embeds_strings String_of ->
  transport log (reference_call c storedObjectId reference) = inr r ->
  ok r = false ->
  addObjectReference String_of c (VStr storedObjectId)
    (Methods.entity_id reference) (Methods.task_id reference) transport log
  = (inl (Error (http_error_message (status r) (text r))),
     log ++ [reference_call c storedObjectId reference]).
Proof.
  intros Hstr E Hr. unfold addObjectReference, bind, lift. rewrite Hstr.
  rewrite request_cases. fold (reference_call c storedObjectId reference).
  now rewrite E, Hr.
Qed.

(** The loop over the references, as long as the transport answers. *)
Lemma for_await_answered (storedObjectId : string)
    (references : list Methods.ObjectReference) :
  embeds_strings String_of ->
  Forall (fun reference =>
            answers_ok transport (reference_call c storedObjectId reference))
    references ->
  forall log,
    for_await
      (fun reference =>
         addObjectReference String_of c (VStr storedObjectId)
           (Methods.entity_id reference) (Methods.task_id reference))
      references transport log
    = (inr tt, log ++ map (reference_call c storedObjectId) references).
Proof.
  intros Hstr Hall. induction Hall as [|reference rest Hok _ IH]; intros log.
  - cbn. now rewrite app_nil_r.
  - cbn [for_await map]. unfold bind at 1.
    destruct (addObjectReference_answered storedObjectId reference log
                Hstr Hok) as [v ->].
    rewrite IH. now rewrite <- app_assoc.
Qed.

Lemma for_await_refused (storedObjectId : string)
    (before after : list Methods.ObjectReference)
    (refused : Methods.ObjectReference) (r : Response) :
  embeds_strings String_of ->
  Forall (fun reference =>
            answers_ok transport (reference_call c storedObjectId reference))
    before ->
  (forall log,
      transport log (reference_call c storedObjectId refused) = inr r) ->
  ok r = false ->
  forall log,
    for_await
      (fun reference =>
         addObjectReference String_of c (VStr storedObjectId)
           (Methods.entity_id reference) (Methods.task_id reference))
      (before ++ refused :: after) transport log
    = (inl (Error (http_error_message (status r) (text r))),
       log ++ map (reference_call c storedObjectId) before
           ++ [reference_call c storedObjectId refused]).
Proof.
  intros Hstr Hall Hrefused Hr.
  induction Hall as [|reference rest Hok _ IH]; intros log.
  - cbn [app for_await map]. unfold bind.
    now rewrite (addObjectReference_refused _ _ _ r Hstr (Hrefused log) Hr).
  - cbn [app for_await map]. unfold bind at 1.
    destruct (addObjectReference_answered storedObjectId reference log
                Hstr Hok) as [v ->].
    rewrite IH. now rewrite <- app_assoc.
Qed.

(** [createObject] up to the point where the upload has been answered
    with a stored record. *)
Lemma createObject_uploaded (file : File) (objectId : string)
    (usageHint : option string)
    (referencedBy : option (list Methods.ObjectReference))
    (log : list Call) (r : Response) (stored : value) :
  file_type file <> "" ->
  transport log (upload_call c file objectId usageHint) = inr r ->
  ok r = true ->
  status r <> 204 ->
  json r = inr stored ->
  createObject String_of c file objectId usageHint referencedBy transport log
  = match stored_object_id stored with
    | inl e => (inl e, log ++ [upload_call c file objectId usageHint])
    | inr storedObjectId =>
        match referencedBy with
        | Some references =>
            if negb (is_undefined storedObjectId) then
              bind
                (for_await
                   (fun reference =>
                      addObjectReference String_of c storedObjectId
                        (Methods.entity_id reference)
                        (Methods.task_id reference))
                   references)
                (fun _ => ret stored)
                transport (log ++ [upload_call c file objectId usageHint])
            else
              (inl (Error
                 "AtlasHttpClient.createObject expected the upload response to include an object_id before attaching references."),
               log ++ [upload_call c file objectId usageHint])
        | None => (inr stored, log ++ [upload_call c file objectId usageHint])
        end
    end.
Proof.
  intros Htype Hupload Hok Hstatus Hjson. unfold createObject.
  apply String.eqb_neq in Htype. rewrite Htype.
  unfold bind at 1. rewrite multipartRequest_cases.
  fold (upload_call c file objectId usageHint).
  rewrite Hupload, Hok. cbn [negb].
  apply Nat.eqb_neq in Hstatus. rewrite Hstatus, Hjson.
  unfold bind at 1, lift.
  destruct (stored_object_id stored) as [e|storedObjectId]; [reflexivity|].
  destruct referencedBy as [references|]; [|reflexivity].
  destruct (negb (is_undefined storedObjectId)); reflexivity.
Qed.

End CreateObject.

(** X17. What [createObject] does up to the upload.  Without a content
    type it rejects and calls nothing.  Otherwise the upload is its first
    call, and when the upload is refused, or is answered with status 204
    (the stored record is then [undefined], and reading its [object_id]
    throws), or references are given, an empty list included, and the
    stored record has no [object_id], it rejects with the upload as its
    only call.  With no references given it resolves to the stored
    record after that one call. *)
Theorem createObject_upload (String_of : value -> exn + string)
    (c : Http.AtlasHttpClient) (transport : Async.Transport)
    (file : Async.File) (objectId : string) (usageHint : option string)
    (referencedBy : option (list Methods.ObjectReference))
    (log : list Async.Call) :
  let upload := upload_call c file objectId usageHint in
  let run :=
    Async.createObject String_of c file objectId usageHint referencedBy
      transport log in
  (Async.file_type file = "" ->
   run = (inl (Error "AtlasHttpClient.createObject requires a content type."),
          log))
  /\ (Async.file_type file <> "" ->
      (forall e, transport log upload = inl e -> run = (inl e, log ++ [upload]))
      /\ (forall r,
            transport log upload = inr r -> Async.ok r = false ->
            run = (inl (Error (Async.http_error_message (Async.status r)
                                 (Async.text r))),
                   log ++ [upload]))
      /\ (forall r,
            transport log upload = inr r -> Async.ok r = true ->
            Async.status r = 204 ->
            exists message,
              run = (inl (TypeError message), log ++ [upload]))
      /\ (forall r stored references,
            transport log upload = inr r -> Async.ok r = true ->
            Async.status r <> 204 -> Async.json r = inr (VObj stored) ->
            get_prop stored "object_id" = None ->
            referencedBy = Some references ->
            run = (inl (Error
                     "AtlasHttpClient.createObject expected the upload response to include an object_id before attaching references."),
                   log ++ [upload]))
      /\ (forall r stored,
            transport log upload = inr r -> Async.ok r = true ->
            Async.status r <> 204 -> Async.json r = inr (VObj stored) ->
            referencedBy = None ->
            run = (inr (VObj stored), log ++ [upload]))).
Proof.
  intros upload run. split.
  - intros Htype. unfold run, Async.createObject. now rewrite Htype.
  - intros Htype. pose proof Htype as Hneq.
    apply String.eqb_neq in Htype.
    assert (Hrun :
      run = Async.bind
              (Async.multipartRequest c "/objects/upload"
                 (Async.upload_form file objectId usageHint))
              (fun stored =>
                 Async.bind (Async.lift (Async.stored_object_id stored))
                   (fun storedObjectId =>
                      match referencedBy with
                      | Some references =>
                          if negb (is_undefined storedObjectId) then
                            Async.bind
                              (Async.for_await
                                 (fun reference =>
                                    Async.addObjectReference String_of c
                                      storedObjectId
                                      (Methods.entity_id reference)
                                      (Methods.task_id reference))
                                 references)
                              (fun _ => Async.ret stored)
                          else
                            Async.throw (Error
                              "AtlasHttpClient.createObject expected the upload response to include an object_id before attaching references.")
                      | None => Async.ret stored
                      end))
              transport log).
    { unfold run, Async.createObject. now rewrite Htype. }
    split; [|split; [|split; [|split]]].
    + intros e E. rewrite Hrun. unfold Async.bind at 1.
      rewrite multipartRequest_cases.
      fold (upload_call c file objectId usageHint). fold upload. now rewrite E.
    + intros r E Hr. rewrite Hrun. unfold Async.bind at 1.
      rewrite multipartRequest_cases.
      fold (upload_call c file objectId usageHint). fold upload. now rewrite E, Hr.
    + intros r E Hr Hs. rewrite Hrun. unfold Async.bind at 1.
      rewrite multipartRequest_cases.
      fold (upload_call c file objectId usageHint). fold upload. rewrite E, Hr, Hs.
      cbn. eexists. reflexivity.
    + intros r stored references E Hr Hs Hj Hid ->. unfold run.
      rewrite (createObject_uploaded String_of c transport file objectId
                 usageHint _ log r (VObj stored) Hneq E Hr Hs Hj).
      cbn [Async.stored_object_id]. now rewrite Hid.
    + intros r stored E Hr Hs Hj ->. unfold run.
      rewrite (createObject_uploaded String_of c transport file objectId
                 usageHint _ log r (VObj stored) Hneq E Hr Hs Hj).
      cbn [Async.stored_object_id].
      now destruct (get_prop stored "object_id").
Qed.

(** X18. When the upload is answered with a stored record whose
    [object_id] is a string and the transport answers every reference
    call, [createObject] resolves to the stored record after the upload
    followed by one [POST /objects/<object_id>/references] per reference,
    in the order given; the path uses the [object_id] of the response,
    not the [objectId] argument. *)
Theorem createObject_attaches_references (String_of : value -> exn + string)
    (c : Http.AtlasHttpClient) (transport : Async.Transport)
    (file : Async.File) (objectId : string) (usageHint : option string)
    (references : list Methods.ObjectReference) (log : list Async.Call)
    (r : Async.Response) (stored : list (string * value))
    (storedObjectId : string) :
  embeds_strings String_of ->
  Async.file_type file <> "" ->
  transport log (upload_call c file objectId usageHint) = inr r ->
  Async.ok r = true ->
  Async.status r <> 204 ->
  Async.json r = inr (VObj stored) ->
  get_prop stored "object_id" = Some (VStr storedObjectId) ->
  Forall (fun reference =>
            answers_ok transport (reference_call c storedObjectId reference))
    references ->
  Async.createObject String_of c file objectId usageHint (Some references)
    transport log
  = (inr (VObj stored),
     log ++ upload_call c file objectId usageHint
         :: map (reference_call c storedObjectId) references).
Proof.
  intros Hstr Htype E Hr Hs Hj Hid Hall.
  rewrite (createObject_uploaded String_of c transport file objectId
             usageHint _ log r (VObj stored) Htype E Hr Hs Hj).
  cbn [Async.stored_object_id]. rewrite Hid. cbn [is_undefined negb].
  unfold Async.bind.
  rewrite (for_await_answered String_of c transport storedObjectId
             references Hstr Hall).
  unfold Async.ret. now rewrite <- app_assoc.
Qed.

(** X19. [createObject] stops at the first reference the server refuses:
    it rejects with that response's HTTP error, the references before it
    have been attached, none after it is attempted, and the upload is
    not undone. *)
Theorem createObject_stops_at_refusal (String_of : value -> exn + string)
    (c : Http.AtlasHttpClient) (transport : Async.Transport)
    (file : Async.File) (objectId : string) (usageHint : option string)
    (before after : list Methods.ObjectReference)
    (refused : Methods.ObjectReference) (log : list Async.Call)
    (r refusal : Async.Response) (stored : list (string * value))
    (storedObjectId : string) :
  embeds_strings String_of ->
  Async.file_type file <> "" ->
  transport log (upload_call c file objectId usageHint) = inr r ->
  Async.ok r = true ->
  Async.status r <> 204 ->
  Async.json r = inr (VObj stored) ->
  get_prop stored "object_id" = Some (VStr storedObjectId) ->
  Forall (fun reference =>
            answers_ok transport (reference_call c storedObjectId reference))
    before ->
  (forall log',
      transport log' (reference_call c storedObjectId refused)
      = inr refusal) ->
  Async.ok refusal = false ->
  Async.createObject String_of c file objectId usageHint
    (Some (before ++ refused :: after)) transport log
  = (inl (Error (Async.http_error_message (Async.status refusal)
                   (Async.text refusal))),
     log ++ upload_call c file objectId usageHint
         :: map (reference_call c storedObjectId) before
         ++ [reference_call c storedObjectId refused]).
Proof.
  intros Hstr Htype E Hr Hs Hj Hid Hall Hrefused Hrefusal.
  rewrite (createObject_uploaded String_of c transport file objectId
             usageHint _ log r (VObj stored) Htype E Hr Hs Hj).
  cbn [Async.stored_object_id]. rewrite Hid. cbn [is_undefined negb].
  unfold Async.bind.
  rewrite (for_await_refused String_of c transport storedObjectId
             before after refused refusal Hstr Hall Hrefused Hrefusal).
  now rewrite <- app_assoc.
Qed.

Lemma createObject_attaches_references_witness :
  let references := [Scenario.to_entity "entity-1"; Scenario.to_task "task-2"] in
  let upload :=
    upload_call Examples.client Scenario.uploadFile "obj-1" (Some "file-hint") in
  Async.createObject Scenario.strings_only Examples.client Scenario.uploadFile
    "obj-1" (Some "file-hint") (Some references) Scenario.recorder []
  = (inr (VObj Scenario.stored),
     [ upload;
       reference_call Examples.client "obj-123" (Scenario.to_entity "entity-1");
       reference_call Examples.client "obj-123" (Scenario.to_task "task-2") ]).
Proof.
  intros references upload.
  refine (createObject_attaches_references Scenario.strings_only
            Examples.client Scenario.recorder Scenario.uploadFile "obj-1"
            (Some "file-hint") references []
            (Scenario.answer (VObj Scenario.stored)) Scenario.stored "obj-123"
            _ _ eq_refl eq_refl _ eq_refl eq_refl _).
  - intros s. reflexivity.
  - discriminate.
  - discriminate.
  - repeat constructor; intros log; eexists;
      (split; [reflexivity|]); (split; [reflexivity|]);
      right; eexists; reflexivity.
Defined.

Lemma createObject_stops_at_refusal_witness :
  let before := [Scenario.to_entity "entity-1"] in
  let refused := Scenario.to_task "task-2" in
  let after := [Scenario.to_entity "entity-3"] in
  Async.createObject Scenario.strings_only Examples.client Scenario.uploadFile
    "obj-1" None (Some (before ++ refused :: after))
    Scenario.no_task_references []
  = (inl (Error "HTTP 404: not found"),
     [ upload_call Examples.client Scenario.uploadFile "obj-1" None;
       reference_call Examples.client "obj-123" (Scenario.to_entity "entity-1");
       reference_call Examples.client "obj-123" (Scenario.to_task "task-2") ]).
Proof.
  intros before refused after.
  refine (createObject_stops_at_refusal Scenario.strings_only
            Examples.client Scenario.no_task_references Scenario.uploadFile
            "obj-1" None before after refused []
            (Scenario.answer (VObj Scenario.stored)) Scenario.not_found
            Scenario.stored "obj-123"
            _ _ eq_refl eq_refl _ eq_refl eq_refl _ _ eq_refl).
  - intros s. reflexivity.
  - discriminate.
  - discriminate.
  - repeat constructor; intros log; eexists;
      (split; [reflexivity|]); (split; [reflexivity|]);
      right; eexists; reflexivity.
  - intros log'. reflexivity.
Defined.

Lemma createObject_upload_witness :
  Async.file_type Scenario.uploadFile <> ""
  /\ Async.createObject Scenario.strings_only Examples.client
       Scenario.uploadFile "obj-1" None (Some [])
       (fun _ _ => inr (Scenario.answer (VObj [("success", VBool true)]))) []
     = (inl (Error
          "AtlasHttpClient.createObject expected the upload response to include an object_id before attaching references."),
        [upload_call Examples.client Scenario.uploadFile "obj-1" None]).
Proof.
  assert (Htype : Async.file_type Scenario.uploadFile <> "") by discriminate.
  split; [exact Htype|].
  refine (proj1 (proj2 (proj2 (proj2
            (proj2 (createObject_upload Scenario.strings_only Examples.client
                      (fun _ _ =>
                         inr (Scenario.answer
                                (VObj [("success", VBool true)])))
                      Scenario.uploadFile "obj-1" None (Some []) [])
               Htype))))
            _ [("success", VBool true)] [] eq_refl eq_refl _ eq_refl eq_refl
            eq_refl).
  discriminate.
Defined.

(** ** The frame guards *)

Section GuardFacts.

Import Guards.

(** The frame types the guards recognise. *)
Lemma guards_hits (frame : ControllerFrame) :
  filter (fun guard => guard frame) guards = []
  \/ exists guard, filter (fun guard => guard frame) guards = [guard].
Proof.
  unfold guards, isSyncAckFrame, isEventFrame, isHeartbeatAckFrame,
    isCreateAckFrame, isUpdateAckFrame, isDeleteAckFrame,
    isHandshakeAckFrame, isErrorFrame.
  cbn [filter].
  destruct (String.eqb_spec (type frame) "sync:ack") as [E|_];
    [try rewrite E; right; eexists; reflexivity|].
  destruct (String.eqb_spec (type frame) "event") as [E|_];
    [try rewrite E; right; eexists; reflexivity|].
  destruct (String.eqb_spec (type frame) "heartbeat:ack") as [E|_];
    [try rewrite E; right; eexists; reflexivity|].
  destruct (String.eqb_spec (type frame) "create:ack") as [E|_];
    [try rewrite E; right; eexists; reflexivity|].
  destruct (String.eqb_spec (type frame) "update:ack") as [E|_];
    [try rewrite E; right; eexists; reflexivity|].
  destruct (String.eqb_spec (type frame) "delete:ack") as [E|_];
    [try rewrite E; right; eexists; reflexivity|].
  destruct (String.eqb_spec (type frame) "handshake:ack") as [E|_];
    [try rewrite E; right; eexists; reflexivity|].
  destruct (String.eqb_spec (type frame) "error") as [E|_];
    [try rewrite E; right; eexists; reflexivity|].
  now left.
Qed.

Lemma guards_some_iff (frame : ControllerFrame) :
  existsb (fun guard => guard frame) guards = true
  <-> In (type frame)
        [ "sync:ack"; "event"; "heartbeat:ack"; "create:ack"; "update:ack";
          "delete:ack"; "handshake:ack"; "error" ].
Proof.
  unfold guards, isSyncAckFrame, isEventFrame, isHeartbeatAckFrame,
    isCreateAckFrame, isUpdateAckFrame, isDeleteAckFrame,
    isHandshakeAckFrame, isErrorFrame.
  cbn [existsb In]. rewrite !orb_true_iff, !String.eqb_eq.
  intuition congruence.
Qed.

End GuardFacts.

(** X20. The eight frame guards are mutually exclusive and look at the
    [type] field only: at most one of them accepts a given frame, one
    does exactly when the type is one of the eight they name, and the
    fourteen other members of [FrameType] (the requests and the
    [subscribe], [unsubscribe], [list] and [get] acknowledgements) are
    accepted by none. *)
Theorem guards_mutually_exclusive (frame : Guards.ControllerFrame) :
  List.length (filter (fun guard => guard frame) Guards.guards) <= 1
  /\ (existsb (fun guard => guard frame) Guards.guards = true
      <-> In (Guards.type frame)
            [ "sync:ack"; "event"; "heartbeat:ack"; "create:ack";
              "update:ack"; "delete:ack"; "handshake:ack"; "error" ])
  /\ (In (Guards.type frame)
        [ "handshake"; "heartbeat"; "sync"; "subscribe"; "subscribe:ack";
          "unsubscribe"; "unsubscribe:ack"; "create"; "update"; "delete";
          "list"; "list:ack"; "get"; "get:ack" ] ->
      In (Guards.type frame) Guards.FrameType
      /\ existsb (fun guard => guard frame) Guards.guards = false)
  /\ (forall other,
        Guards.type other = Guards.type frame ->
        map (fun guard => guard other) Guards.guards
        = map (fun guard => guard frame) Guards.guards).
Proof.
  split; [|split; [|split]].
  - destruct (guards_hits frame) as [->|[guard ->]]; cbn; lia.
  - apply guards_some_iff.
  - intros Hin. split.
    + unfold Guards.FrameType. cbn in Hin |- *. intuition.
    + destruct (existsb (fun guard => guard frame) Guards.guards) eqn:E;
        [|reflexivity].
      apply guards_some_iff in E. cbn in Hin, E.
      intuition (subst; congruence).
  - intros other Hsame. unfold Guards.guards, Guards.isSyncAckFrame,
      Guards.isEventFrame, Guards.isHeartbeatAckFrame,
      Guards.isCreateAckFrame, Guards.isUpdateAckFrame,
      Guards.isDeleteAckFrame, Guards.isHandshakeAckFrame,
      Guards.isErrorFrame.
    cbn [map]. now rewrite Hsame.
Qed.

(** ** Check-in *)

Section Checkin.

Import Http Methods.

Lemma get_prop_assign_own (o : JsonRecord) (key key' : string) (v : value) :
  get_prop (assign_own o key v) key'
  = if String.eqb key key' then Some v else get_prop o key'.
Proof.
  induction o as [|[k w] o IH]; cbn.
  - now destruct (String.eqb key key').
  - destruct (String.eqb_spec k key) as [->|Hne]; cbn.
    + now destruct (String.eqb key key').
    + rewrite IH. destruct (String.eqb_spec k key') as [->|Hne'];
        [|reflexivity].
      destruct (String.eqb_spec key key') as [->|_]; [congruence|reflexivity].
Qed.

Lemma get_prop_set_if_defined (o : JsonRecord) (key key' : string)
    (x : option value) :
  key <> "__proto__" ->
  get_prop (set_if_defined o key x) key'
  = match x with
    | Some v => if String.eqb key key' then Some v else get_prop o key'
    | None => get_prop o key'
    end.
Proof.
  intros Hkey. destruct x as [v|]; [|reflexivity]. cbn. unfold set_prop.
  apply String.eqb_neq in Hkey. rewrite Hkey. apply get_prop_assign_own.
Qed.

End Checkin.

(** X21. [checkinEntity] sends the telemetry object it is given with
    every field as it is, except that a given [status] option replaces
    the object's own [status]; its query always carries [status_filter]
    and [limit], with the defaults ["pending,acknowledged"] and [10] when
    they are left out (an empty filter string is kept, not defaulted),
    and carries [since] and [fields] exactly when they are given. *)
Theorem checkinEntity_payload_and_query (c : Http.AtlasHttpClient)
    (entityId : string) (telemetry : Http.JsonRecord)
    (options : option Methods.CheckinOptions) (log : list Http.FetchCall) :
  exists call body,
    Methods.checkinEntity c entityId telemetry options log
    = (inr (Http.Pending call), log ++ [call])
    /\ Http.fc_method call = "POST"
    /\ Http.fc_body call = Some body
    /\ (forall key, key <> "status" ->
          get_prop body key = get_prop telemetry key)
    /\ get_prop body "status"
       = match Http.opt_field Methods.ci_status options with
         | Some status => Some (VStr status)
         | None => get_prop telemetry "status"
         end
    /\ get_prop (Http.fc_search call) "status_filter"
       = Some (VStr (Methods.default "pending,acknowledged"
                       (Http.opt_field Methods.ci_status_filter options)))
    /\ get_prop (Http.fc_search call) "limit"
       = Some (VNum (Methods.default 10%float
                       (Http.opt_field Methods.ci_limit options)))
    /\ get_prop (Http.fc_search call) "since"
       = option_map VStr (Http.opt_field Methods.ci_since options)
    /\ get_prop (Http.fc_search call) "fields"
       = option_map VStr (Http.opt_field Methods.ci_fields options)
    /\ List.length (Http.fc_search call) <= 4.
Proof.
  unfold Methods.checkinEntity. do 2 eexists.
  split; [reflexivity|]. split; [reflexivity|]. split; [reflexivity|].
  split; [|split].
  - intros key Hkey. rewrite get_prop_set_if_defined by discriminate.
    destruct (option_map VStr (Http.opt_field Methods.ci_status options));
      [|reflexivity].
    destruct (String.eqb_spec "status" key) as [<-|_]; [congruence|reflexivity].
  - rewrite get_prop_set_if_defined by discriminate.
    now destruct (Http.opt_field Methods.ci_status options).
  - cbn [Http.fc_search].
    destruct (Http.opt_field Methods.ci_since options),
             (Http.opt_field Methods.ci_fields options);
      cbn; repeat split; lia.
Qed.

(** ** The stripper at any depth of the call stack *)

Section NeverThrows.

Import Run.

Lemma map_items_partial (f : value -> outcome value) (g : value -> value)
    (items : list value) :
  Forall (fun item => f item = Exhausted \/ f item = Returned (g item))
    items ->
  map_items f items = Exhausted
  \/ map_items f items = Returned (map g items).
Proof.
  induction 1 as [|item rest [Hitem|Hitem] _ [IH|IH]];
    cbn [map_items map]; rewrite ?Hitem, ?IH; cbn; auto.
Qed.

Lemma for_of_partial {A S : Type} (body : S -> A -> outcome S)
    (g : S -> A -> S) (xs : list A) :
  Forall (fun x => forall s,
            body s x = Exhausted \/ body s x = Returned (g s x)) xs ->
  forall s,
    for_of body xs s = Exhausted
    \/ for_of body xs s = Returned (fold_left g xs s).
Proof.
  induction 1 as [|x rest Hx _ IH]; intros s; cbn [for_of fold_left];
    [now right|].
  destruct (Hx s) as [E|E]; rewrite E; cbn; [now left | apply IH].
Qed.

Lemma run_stripValue_partial (depth : nat) :
  forall v,
    run_stripValue depth v = Exhausted
    \/ run_stripValue depth v = Returned (stripValue v).
Proof.
  induction depth as [|depth IH]; intros v; [now left|].
  destruct v as [| |b|n|s|items|entries]; try (right; reflexivity).
  - cbn [run_stripValue is_nullish is_null is_undefined orb Array_isArray
         Array_map stripValue].
    destruct (map_items_partial
                (fun item =>
                   if is_nullish item then Returned item
                   else run_stripValue depth item)
                (strip_item stripValue) items) as [E|E].
    + apply Forall_forall. intros item _. unfold strip_item.
      destruct (is_nullish item); [now right | apply IH].
    + rewrite E. now left.
    + rewrite E. now right.
  - cbn [run_stripValue is_nullish is_null is_undefined orb Array_isArray
         typeof Object_entries bind stripValue].
    change (String.eqb "object" "object") with true. cbn iota.
    match goal with
    | |- context [for_of ?body entries []] =>
        destruct (for_of_partial body (strip_entry stripValue) entries)
          with (s := @nil (string * value)) as [E|E]
    end.
    + apply Forall_forall. intros [k w] _ nested. unfold strip_entry.
      destruct (is_nullish w); [now right|].
      destruct (IH w) as [E|E]; rewrite E; cbn; [now left|].
      right. now destruct (negb (is_undefined (stripValue w))).
    + rewrite E. now left.
    + rewrite E. now right.
Qed.

Lemma map_items_mono (f f' : value -> outcome value) (items : list value) :
  Forall (fun item => forall x, f item = Returned x -> f' item = Returned x)
    items ->
  forall result,
    map_items f items = Returned result ->
    map_items f' items = Returned result.
Proof.
  induction 1 as [|item rest Hitem _ IH]; intros result; cbn [map_items];
    [auto|].
  destruct (f item) as [x| |] eqn:E; cbn [bind]; try discriminate.
  rewrite (Hitem x eq_refl). cbn [bind].
  destruct (map_items f rest) as [l| |] eqn:El; cbn [bind]; try discriminate.
  now rewrite (IH l eq_refl).
Qed.

Lemma for_of_mono {A S : Type} (body body' : S -> A -> outcome S)
    (xs : list A) :
  Forall (fun x => forall s s',
            body s x = Returned s' -> body' s x = Returned s') xs ->
  forall s result,
    for_of body xs s = Returned result ->
    for_of body' xs s = Returned result.
Proof.
  induction 1 as [|x rest Hx _ IH]; intros s result; cbn [for_of]; [auto|].
  destruct (body s x) as [s'| |] eqn:E; cbn [bind]; try discriminate.
  rewrite (Hx s s' E). cbn [bind]. apply IH.
Qed.

Lemma run_stripValue_step (depth : nat) (v : value) :
  run_stripValue (S depth) v
  = if is_nullish v then Returned VUndefined
    else if Array_isArray v then
      Array_map
        (fun item =>
           if is_nullish item then Returned item
           else run_stripValue depth item)
        v
    else if String.eqb (typeof v) "object" then
      entries <- Object_entries v ;;
      nested <-
        for_of
          (fun nested (entry : string * value) =>
             let (key, innerValue) := entry in
             if is_nullish innerValue then Returned nested
             else
               stripped <- run_stripValue depth innerValue ;;
               if negb (is_undefined stripped)
               then Returned (set_prop nested key stripped)
               else Returned nested)
          entries [] ;;
      Returned (VObj nested)
    else Returned v.
Proof. reflexivity. Qed.

Lemma run_stripValue_deeper (depth : nat) :
  forall v result,
    run_stripValue depth v = Returned result ->
    run_stripValue (S depth) v = Returned result.
Proof.
  induction depth as [|depth IH]; intros v result H; [discriminate H|].
  rewrite run_stripValue_step in H. rewrite (run_stripValue_step (S depth)).
  destruct v as [| |b|n|s|items|entries]; try exact H.
  - cbn [is_nullish is_null is_undefined orb Array_isArray Array_map]
      in H |- *.
    destruct (map_items _ items) as [l| |] eqn:E in H; try discriminate H.
    erewrite map_items_mono; [exact H | | exact E].
    apply Forall_forall. intros item _ x.
    destruct (is_nullish item); [auto | apply IH].
  - cbn [is_nullish is_null is_undefined orb Array_isArray typeof
         Object_entries bind] in H |- *.
    change (String.eqb "object" "object") with true in H |- *.
    cbn iota in H |- *.
    destruct (for_of _ entries []) as [l| |] eqn:E in H; try discriminate H.
    erewrite for_of_mono; [exact H | | exact E].
    apply Forall_forall. intros [k w] _ nested nested'.
    destruct (is_nullish w); [auto|].
    destruct (run_stripValue depth w) as [x| |] eqn:Ew; cbn [bind];
      try discriminate.
    now rewrite (IH w x Ew).
Qed.

Lemma run_stripValue_monotone (depth deeper : nat) (v result : value) :
  depth <= deeper ->
  run_stripValue depth v = Returned result ->
  run_stripValue deeper v = Returned result.
Proof.
  induction 1 as [|deeper _ IH]; [auto|].
  intros H. apply run_stripValue_deeper. auto.
Qed.

End NeverThrows.

(** X22. The guards of [stripValue] protect its partial primitives at
    every depth: run with any bound on the call stack, on any value, the
    function either runs out of stack or returns the stripped value; it
    never throws, and once a stack is deep enough for a value every
    deeper one returns the same result. *)
Theorem run_stripNulls_never_throws (depth : nat) (v : value) :
  (Run.run_stripNulls depth v = Run.Exhausted
   \/ Run.run_stripNulls depth v = Run.Returned (stripNulls v))
  /\ (forall e, Run.run_stripNulls depth v <> Run.Threw e)
  /\ (forall result deeper,
        Run.run_stripNulls depth v = Run.Returned result ->
        depth <= deeper ->
        Run.run_stripNulls deeper v = Run.Returned result).
Proof.
  unfold Run.run_stripNulls, stripNulls.
  pose proof (run_stripValue_partial depth v) as H.
  split; [exact H|]. split.
  - intros e He. destruct H as [H|H]; rewrite H in He; discriminate He.
  - intros result deeper Hres Hle.
    now apply (run_stripValue_monotone depth deeper).
Qed.
